(** * Icon lookup of [scripts/generate-icon.py]

    A shallow embedding of the theme-index parser ([Theme], [ThemeSubdirectory]),
    the size matcher ([directory_matches_size], [directory_size_distance]),
    the resolver ([lookup_icon], [find_icon_helper], [find_icon]) and the
    script around them ([get_theme_name], [convert_svg_to_png],
    [generate_icon]), followed by the properties of the specification settled
    against it and further properties of the code.

    Conventions.
    - Python [str] values are [string]s (ASCII); [None] is the [None] of an
      [option]; Python [int]s are unbounded, hence [Z].
    - A call either returns or raises: [result]. Code that reads the module
      global [THEME_CACHE] or opens files runs in the state monad [M] over
      [World].
    - The file system and [Path.home()] are the environment of the script and
      are Section variables. *)

From Stdlib Require Import String Ascii List ZArith Bool Arith Lia Relations.
From Stdlib Require Import DecimalString.
Import ListNotations.

Local Open Scope list_scope.
Local Open Scope string_scope.

(* ================================================================== *)
(** ** Python built-ins used by the script *)
(* ================================================================== *)

Module Py.

(** [str.isspace] on one ASCII character: TAB..CR, FS..US and the blank. *)
Definition isspace (c : ascii) : bool :=
  let n := nat_of_ascii c in
  ((9 <=? n)%nat && (n <=? 13)%nat) || ((28 <=? n)%nat && (n <=? 32)%nat).

Fixpoint lstrip (s : string) : string :=
  match s with
  | EmptyString => EmptyString
  | String c s' => if isspace c then lstrip s' else s
  end.

Fixpoint rstrip (s : string) : string :=
  match s with
  | EmptyString => EmptyString
  | String c s' =>
      match rstrip s' with
      | EmptyString => if isspace c then EmptyString else String c EmptyString
      | r => String c r
      end
  end.

(** [s.strip()] *)
Definition strip (s : string) : string := rstrip (lstrip s).

(** [s.startswith(p)] *)
Definition startswith (s p : string) : bool := String.prefix p s.

(** [s.split(sep)] for a one-character separator (the script only splits
    on ["="] and [","]): never empty, ["".split(sep) == [""]]. *)
Fixpoint split (s : string) (sep : ascii) : list string :=
  match s with
  | EmptyString => [EmptyString]
  | String c s' =>
      if Ascii.eqb c sep then EmptyString :: split s' sep
      else match split s' sep with
           | w :: ws => String c w :: ws
           | [] => [String c EmptyString]
           end
  end.

(** [sep.join(parts)] *)
Fixpoint join (sep : string) (l : list string) : string :=
  match l with
  | [] => EmptyString
  | [w] => w
  | w :: ws => w ++ sep ++ join sep ws
  end.

Definition digit (c : ascii) : option Z :=
  let n := nat_of_ascii c in
  if (48 <=? n)%nat && (n <=? 57)%nat then Some (Z.of_nat (n - 48)) else None.

(** Decimal digits, a single ["_"] allowed between two digits. *)
Fixpoint digits (acc : Z) (after_digit : bool) (s : string) : option Z :=
  match s with
  | EmptyString => if after_digit then Some acc else None
  | String c s' =>
      match digit c with
      | Some d => digits (10 * acc + d)%Z true s'
      | None =>
          if Ascii.eqb c "_" && after_digit then digits acc false s' else None
      end
  end.

(** [int(v)] on a string: surrounding white space, an optional sign, decimal
    digits. [None] stands for [ValueError]. *)
Definition int (v : string) : option Z :=
  match strip v with
  | String "-" r => option_map Z.opp (digits 0 false r)
  | String "+" r => digits 0 false r
  | s => digits 0 false s
  end.

(** [sys.maxsize] of a 64-bit CPython. *)
Definition sys_maxsize : Z := 2 ^ 63 - 1.

End Py.

(* ================================================================== *)
(** ** [pathlib.Path] (pure POSIX flavour) *)
(* ================================================================== *)

(** A path is its root (["" ], ["/"] or ["//"]) and its components; empty
    components and ["."] are dropped when a string is parsed. *)
Record Path : Type := mkPath { root : string; parts : list string }.

Definition path_root (s : string) : string :=
  match s with
  | String "/" (String "/" (String "/" _)) => "/"
  | String "/" (String "/" _) => "//"
  | String "/" _ => "/"
  | _ => ""
  end.

Definition path_component (c : string) : bool :=
  negb (String.eqb c "") && negb (String.eqb c ".").

(** [Path(s)] *)
Definition Path_of (s : string) : Path :=
  {| root := path_root s; parts := filter path_component (Py.split s "/") |}.

(** [str(p)] *)
Definition Path_str (p : Path) : string :=
  match root p, parts p with
  | EmptyString, [] => "."
  | r, ps => r ++ Py.join "/" ps
  end.

(** [p / q]: an absolute right operand replaces the left one. *)
Definition Path_div (p q : Path) : Path :=
  if String.eqb (root q) "" then {| root := root p; parts := parts p ++ parts q |}
  else q.

Notation "p // s" := (Path_div p (Path_of s)) (at level 40, left associativity).

(* ================================================================== *)
(** ** Results, exceptions *)
(* ================================================================== *)

Inductive exn : Type :=
| TypeError        (* an operation on [None] *)
| ValueError       (* [int] of a malformed literal *)
| OSError          (* [open] failed (FileNotFoundError and the like) *)
| RecursionError.  (* maximum recursion depth exceeded *)

Inductive result (A : Type) : Type :=
| Ok (a : A)
| Raise (e : exn).
Arguments Ok {A} a.
Arguments Raise {A} e.

Definition rbind {A B} (r : result A) (k : A -> result B) : result B :=
  match r with
  | Ok a => k a
  | Raise e => Raise e
  end.

(* ================================================================== *)
(** ** Data model *)
(* ================================================================== *)

Inductive SubdirType : Type := Fixed | Scalable.

(** [class ThemeSubdirectory]. The back-reference [theme] is kept as the path
    of the owning theme, the one attribute read through it ([full_path]).
    Every attribute starts as the class default [None]. *)
Record ThemeSubdirectory : Type := mkSubdir {
  relpath : Path;
  theme_path : Path;
  type : option SubdirType;
  size : option Z;
  min_size : option Z;
  max_size : option Z;
  scale : option Z
}.

(** [class Theme]: [parents] and [directories] keep the class default [None]
    until an [Inherits] / [Directories] line assigns them. *)
#[local] Unset Elimination Schemes.
Inductive Theme : Type := mkTheme {
  path : Path;
  index_file : Path;
  parents : option (list Theme);
  directories : option (list ThemeSubdirectory)
}.
#[local] Set Elimination Schemes.

(** [ThemeSubdirectory.full_path] *)
Definition full_path (sd : ThemeSubdirectory) : Path :=
  Path_div (theme_path sd) (relpath sd).

(** [Theme.has_parents] (its truth value) *)
Definition has_parents (t : Theme) : bool :=
  match parents t with
  | Some (_ :: _) => true
  | _ => false
  end.

(* ================================================================== *)
(** ** The process state and the environment *)
(* ================================================================== *)

(** The module global [THEME_CACHE : dict[str, Theme]] (insertion-ordered,
    read with [in] and [[]]), and the trace of the files the process has
    opened, oldest first. *)
Record World : Type := mkWorld {
  THEME_CACHE : list (string * Theme);
  opened : list string
}.

(** The module as loaded: [THEME_CACHE = {}], nothing opened. *)
Definition initial_world : World := {| THEME_CACHE := []; opened := [] |}.

(** What the script asks of the file system, by path string:
    [Path.is_dir], [os.path.exists], and [open(p, "r")] as the lines that
    iterating over the file yields ([None]: the open fails). *)
Record FileSystem : Type := mkFS {
  fs_is_dir : string -> bool;
  fs_exists : string -> bool;
  fs_lines : string -> option (list string)
}.

Definition M (A : Type) : Type := World -> result A * World.

Definition ret {A} (a : A) : M A := fun w => (Ok a, w).
Definition raise {A} (e : exn) : M A := fun w => (Raise e, w).
Definition bind {A B} (m : M A) (k : A -> M B) : M B :=
  fun w => match m w with
           | (Ok a, w') => k a w'
           | (Raise e, w') => (Raise e, w')
           end.
Definition lift {A} (r : result A) : M A := fun w => (r, w).

Notation "x <- m ;; k" := (bind m (fun x => k))
  (at level 61, m at next level, right associativity).

(** A list comprehension [[f(x) for x in xs]] whose body has effects. *)
Fixpoint comprehension {A B} (f : A -> M B) (xs : list A) : M (list B) :=
  match xs with
  | [] => ret []
  | x :: xs' => y <- f x ;; ys <- comprehension f xs' ;; ret (y :: ys)
  end.

(** [key in d.keys()] / [d[key]] on the insertion-ordered dictionary. *)
Fixpoint dict_get {V} (d : list (string * V)) (key : string) : option V :=
  match d with
  | [] => None
  | (k, v) :: d' => if String.eqb k key then Some v else dict_get d' key
  end.

(* ================================================================== *)
(** ** SizeMatcher: [directory_matches_size], [directory_size_distance] *)
(* ================================================================== *)

(** [a == b] between an attribute that may still be [None] and an [int]. *)
Definition py_eq (a : option Z) (b : Z) : bool :=
  match a with
  | Some x => (x =? b)%Z
  | None => false
  end.

(** [a * b] where either side may be [None]. *)
Definition py_mul (a b : option Z) : result Z :=
  match a, b with
  | Some x, Some y => Ok (x * y)%Z
  | _, _ => Raise TypeError
  end.

(** The value returned is [True], [False], or [None] when the function falls
    off its end (a subdirectory whose [type] was never assigned). The
    requested scale is the integer the script passes ([find_icon(..., 64, 1)]). *)
Definition directory_matches_size
    (subdir : ThemeSubdirectory) (icon_size icon_scale : Z) : result (option bool) :=
  if negb (py_eq (scale subdir) icon_scale) then Ok (Some false)
  else
    match type subdir with
    | Some Fixed => Ok (Some (py_eq (size subdir) icon_size))
    | Some Scalable =>
        (* subdir.min_size <= icon_size <= subdir.max_size *)
        match min_size subdir with
        | None => Raise TypeError
        | Some lo =>
            if (lo <=? icon_size)%Z then
              match max_size subdir with
              | None => Raise TypeError
              | Some hi => Ok (Some (icon_size <=? hi)%Z)
              end
            else Ok (Some false)
        end
    | None => Ok None
    end.

(** Truth value of what [directory_matches_size] returned. *)
Definition truthy (b : option bool) : bool :=
  match b with
  | Some true => true
  | _ => false
  end.

Definition directory_size_distance
    (subdir : ThemeSubdirectory) (icon_size icon_scale : Z) : result Z :=
  let icon_dimension := (icon_size * icon_scale)%Z in
  match type subdir with
  | Some Fixed =>
      rbind (py_mul (size subdir) (scale subdir)) (fun s =>
      Ok (Z.abs (s - icon_dimension)))
  | Some Scalable =>
      rbind (py_mul (min_size subdir) (scale subdir)) (fun lo =>
      if (icon_dimension <? lo)%Z then
        rbind (py_mul (min_size subdir) (scale subdir)) (fun lo' =>
        Ok (lo' - icon_dimension)%Z)
      else
        rbind (py_mul (max_size subdir) (scale subdir)) (fun hi =>
        if (icon_dimension >? hi)%Z then
          rbind (py_mul (max_size subdir) (scale subdir)) (fun hi' =>
          Ok (icon_dimension - hi')%Z)
        else Ok 0%Z))
  | None => Ok Py.sys_maxsize
  end.

(* ================================================================== *)
(** ** The resolver on a constructed theme *)
(* ================================================================== *)

Section Resolver.

Variable fs : FileSystem.

(** The fixed priority order of the candidate extensions. *)
Definition extensions : list string := ["png"; "svg"; "xpm"].

(** [f"{subdir.full_path()}/{iconname}.{extension}"] *)
Definition icon_filename (subdir : ThemeSubdirectory) (iconname extension : string)
  : string :=
  Path_str (full_path subdir) ++ "/" ++ iconname ++ "." ++ extension.

Section Lookup.

Variables (iconname : string) (icon_size icon_scale : Z).

(** First pass of [lookup_icon], inner loop over the extensions. *)
Fixpoint exact_in_subdir (subdir : ThemeSubdirectory) (exts : list string)
  : result (option string) :=
  match exts with
  | [] => Ok None
  | extension :: exts' =>
      rbind (directory_matches_size subdir icon_size icon_scale) (fun m =>
      if truthy m && fs_exists fs (icon_filename subdir iconname extension)
      then Ok (Some (icon_filename subdir iconname extension))
      else exact_in_subdir subdir exts')
  end.

(** First pass, outer loop over [theme.directories]. *)
Fixpoint exact_pass (dirs : list ThemeSubdirectory) : result (option string) :=
  match dirs with
  | [] => Ok None
  | subdir :: dirs' =>
      rbind (exact_in_subdir subdir extensions) (fun r =>
      match r with
      | Some filename => Ok (Some filename)
      | None => exact_pass dirs'
      end)
  end.

(** Second pass: the pair is [(minimal_size, closest_filename)]. *)
Fixpoint closest_in_subdir (subdir : ThemeSubdirectory) (exts : list string)
    (st : Z * option string) : result (Z * option string) :=
  match exts with
  | [] => Ok st
  | extension :: exts' =>
      let filename := icon_filename subdir iconname extension in
      if fs_exists fs filename then
        rbind (directory_size_distance subdir icon_size icon_scale) (fun d =>
        if (d <? fst st)%Z then
          rbind (directory_size_distance subdir icon_size icon_scale) (fun d' =>
          closest_in_subdir subdir exts' (d', Some filename))
        else closest_in_subdir subdir exts' st)
      else closest_in_subdir subdir exts' st
  end.

Fixpoint closest_pass (dirs : list ThemeSubdirectory) (st : Z * option string)
  : result (Z * option string) :=
  match dirs with
  | [] => Ok st
  | subdir :: dirs' =>
      rbind (closest_in_subdir subdir extensions st) (closest_pass dirs')
  end.

(** [lookup_icon]: iterating over [theme.directories = None] raises; the
    second pass starts from [minimal_size = sys.maxsize] and
    [closest_filename = ""], and the final test is
    [closest_filename is not None]. *)
Definition lookup_icon (theme : Theme) : result (option string) :=
  match directories theme with
  | None => Raise TypeError
  | Some dirs =>
      rbind (exact_pass dirs) (fun r =>
      match r with
      | Some filename => Ok (Some filename)
      | None =>
          rbind (closest_pass dirs (Py.sys_maxsize, Some "")) (fun st =>
          match snd st with
          | Some closest_filename => Ok (Some closest_filename)
          | None => Ok None
          end)
      end)
  end.

(** [find_icon_helper]: the theme itself, then its parents depth first in
    the order of [theme.parents]. The recursion follows the finite tree
    of constructed [Theme] objects. *)
Fixpoint find_icon_helper (theme : Theme) : result (option string) :=
  rbind (lookup_icon theme) (fun r =>
  match r with
  | Some filename => Ok (Some filename)
  | None =>
      if has_parents theme then
        match theme with
        | mkTheme _ _ (Some ps) _ =>
            (fix each_parent (ps : list Theme) : result (option string) :=
               match ps with
               | [] => Ok None
               | parent :: ps' =>
                   rbind (find_icon_helper parent) (fun r' =>
                   match r' with
                   | Some filename => Ok (Some filename)
                   | None => each_parent ps'
                   end)
               end) ps
        | mkTheme _ _ None _ => Raise TypeError
        end
      else Ok None
  end).

End Lookup.

End Resolver.

(* ================================================================== *)
(** ** ThemeIndexParser and ThemeCache: constructing themes *)
(* ================================================================== *)

Definition set_type (sd : ThemeSubdirectory) (v : SubdirType) : ThemeSubdirectory :=
  mkSubdir (relpath sd) (theme_path sd) (Some v) (size sd) (min_size sd) (max_size sd) (scale sd).
Definition set_size (sd : ThemeSubdirectory) (v : Z) : ThemeSubdirectory :=
  mkSubdir (relpath sd) (theme_path sd) (type sd) (Some v) (min_size sd) (max_size sd) (scale sd).
Definition set_min_size (sd : ThemeSubdirectory) (v : Z) : ThemeSubdirectory :=
  mkSubdir (relpath sd) (theme_path sd) (type sd) (size sd) (Some v) (max_size sd) (scale sd).
Definition set_max_size (sd : ThemeSubdirectory) (v : Z) : ThemeSubdirectory :=
  mkSubdir (relpath sd) (theme_path sd) (type sd) (size sd) (min_size sd) (Some v) (scale sd).
Definition set_scale (sd : ThemeSubdirectory) (v : Z) : ThemeSubdirectory :=
  mkSubdir (relpath sd) (theme_path sd) (type sd) (size sd) (min_size sd) (max_size sd) (Some v).

Definition set_parents (t : Theme) (ps : list Theme) : Theme :=
  mkTheme (path t) (index_file t) (Some ps) (directories t).
Definition set_directories (t : Theme) (ds : list ThemeSubdirectory) : Theme :=
  mkTheme (path t) (index_file t) (parents t) (Some ds).

(** [int(v)] assigned to a numeric attribute. *)
Definition assign_int (set : Z -> ThemeSubdirectory) (v : string)
  : result ThemeSubdirectory :=
  match Py.int v with
  | Some n => Ok (set n)
  | None => Raise ValueError
  end.

(** The [if k == ... elif ...] chain of [ThemeSubdirectory.__init__]. *)
Definition subdir_key (self : ThemeSubdirectory) (k v : string)
  : result ThemeSubdirectory :=
  if String.eqb k "Type" then
    if String.eqb v "Fixed" then Ok (set_type self Fixed)
    else if String.eqb v "Scalable" then Ok (set_type self Scalable)
    else Ok self
  else if String.eqb k "Size" then assign_int (set_size self) v
  else if String.eqb k "MinSize" then assign_int (set_min_size self) v
  else if String.eqb k "MaxSize" then assign_int (set_max_size self) v
  else if String.eqb k "Scale" then assign_int (set_scale self) v
  else Ok self.

(** One line read while [read] is set (and the line is no section header). *)
Definition subdir_line (self : ThemeSubdirectory) (line : string)
  : result ThemeSubdirectory :=
  match Py.split line "=" with
  | [k; v] => subdir_key self k v
  | _ => Ok self
  end.

(** The [for line in f] loop of [ThemeSubdirectory.__init__]; [header] is
    [f"[{str(relpath)}]"]. *)
Fixpoint subdir_scan (header : string) (lines : list string) (read : bool)
    (self : ThemeSubdirectory) : result ThemeSubdirectory :=
  match lines with
  | [] => Ok self
  | raw :: rest =>
      let line := Py.strip raw in
      if read && Py.startswith line "[" then Ok self
      else
        rbind (if read then subdir_line self line else Ok self) (fun self' =>
        subdir_scan header rest (read || String.eqb line header) self')
  end.

Section Construction.

Variable fs : FileSystem.
(** [Path.home()] *)
Variable home : Path.

(** [open(p, "r")], the lines of the file. *)
Definition open_ (p : Path) : M (list string) :=
  fun w =>
    match fs_lines fs (Path_str p) with
    | Some lines =>
        (Ok lines, {| THEME_CACHE := THEME_CACHE w;
                      opened := opened w ++ [Path_str p] |})
    | None => (Raise OSError, w)
    end.

(** [Theme.get_theme_directory]: [None] when the loop ends without a hit. *)
Definition icon_theme_directories : list Path :=
  [home // ".local/share/icons"; Path_of "/usr/share/icons"].

Fixpoint first_theme_directory (roots : list Path) (theme_name : string)
  : option Path :=
  match roots with
  | [] => None
  | icon_theme_directory :: roots' =>
      let theme_directory := icon_theme_directory // theme_name in
      if fs_is_dir fs (Path_str theme_directory) then Some theme_directory
      else first_theme_directory roots' theme_name
  end.

Definition get_theme_directory (theme_name : string) : option Path :=
  first_theme_directory icon_theme_directories theme_name.

(** [str(theme_directory)], also of [None]. *)
Definition str_directory (theme_directory : option Path) : string :=
  match theme_directory with
  | Some p => Path_str p
  | None => "None"
  end.

(** [ThemeSubdirectory.__init__(relpath, theme)] *)
Definition ThemeSubdirectory_init (relpath : Path) (theme : Theme)
  : M ThemeSubdirectory :=
  lines <- open_ (index_file theme) ;;
  self <- lift (subdir_scan ("[" ++ Path_str relpath ++ "]") lines false
                  (mkSubdir relpath (path theme) None None None None None)) ;;
  ret (match scale self with
       | None => set_scale self 1
       | Some _ => self
       end).

Section Theme_lines.

(** [Theme.from_theme_name] at the recursion depth that is left. *)
Variable from_theme_name : string -> M Theme.

(** The [for line in f] loop of [Theme.__init__]. *)
Fixpoint Theme_scan (lines : list string) (self : Theme) : M Theme :=
  match lines with
  | [] => ret self
  | raw :: rest =>
      let line := Py.strip raw in
      if Py.startswith line "[" && negb (String.eqb line "[Icon Theme]")
      then ret self
      else
        match Py.split line "=" with
        | [k; v] =>
            let vs := Py.split v "," in
            self1 <- (if String.eqb k "Inherits"
                      then ps <- comprehension from_theme_name vs ;;
                           ret (set_parents self ps)
                      else ret self) ;;
            self2 <- (if String.eqb k "Directories"
                      then ds <- comprehension
                                   (fun relpath =>
                                      ThemeSubdirectory_init (Path_of relpath) self1)
                                   vs ;;
                           ret (set_directories self1 ds)
                      else ret self1) ;;
            Theme_scan rest self2
        | _ => Theme_scan rest self
        end
  end.

End Theme_lines.

(** [Theme.check_cache_before_creation], over the constructor [Theme(...)]. *)
Definition check_cache_before_creation
    (Theme_ : option Path -> M Theme) (theme_directory : option Path) : M Theme :=
  fun w =>
    match dict_get (THEME_CACHE w) (str_directory theme_directory) with
    | Some t => (Ok t, w)
    | None => Theme_ theme_directory w
    end.

(** [Theme.__init__]. [depth] is the number of nested constructor calls the
    interpreter still allows; [None / "index.theme"] raises [TypeError]. *)
Fixpoint Theme_init (depth : nat) (theme_directory : option Path) : M Theme :=
  match depth with
  | O => raise RecursionError
  | S depth' =>
      match theme_directory with
      | None => raise TypeError
      | Some d =>
          let self := mkTheme d (d // "index.theme") None None in
          lines <- open_ (index_file self) ;;
          Theme_scan
            (fun theme_name =>
               check_cache_before_creation (Theme_init depth')
                 (get_theme_directory theme_name))
            lines self
      end
  end.

(** [Theme.from_theme_name] *)
Definition from_theme_name (depth : nat) (theme_name : string) : M Theme :=
  check_cache_before_creation (Theme_init depth) (get_theme_directory theme_name).

(** [find_icon]; the requested theme is constructed before the search. *)
Definition find_icon (depth : nat) (theme_name icon : string) (size scale : Z)
  : M (option string) :=
  theme <- check_cache_before_creation (Theme_init depth)
             (get_theme_directory theme_name) ;;
  filename <- lift (find_icon_helper fs icon size scale theme) ;;
  match filename with
  | Some f => ret (Some f)
  | None =>
      hicolor <- check_cache_before_creation (Theme_init depth)
                   (get_theme_directory "hicolor") ;;
      filename' <- lift (find_icon_helper fs icon size scale hicolor) ;;
      match filename' with
      | Some f => ret (Some f)
      | None => ret None
      end
  end.

End Construction.

(* ================================================================== *)
(** ** Concrete installations *)
(* ================================================================== *)

(** The lines that iterating over a text file yields: each ends with its
    line feed, except possibly the last. *)
Fixpoint readlines (content : string) : list string :=
  match content with
  | EmptyString => []
  | String c s' =>
      if Ascii.eqb c "010" then String c EmptyString :: readlines s'
      else match readlines s' with
           | l :: ls => String c l :: ls
           | [] => [String c EmptyString]
           end
  end.

(** A file system given by its directories and its text files. *)
Definition installation (dirs : list string) (files : list (string * string))
  : FileSystem :=
  {| fs_is_dir := fun p => existsb (String.eqb p) dirs;
     fs_exists := fun p =>
       existsb (String.eqb p) dirs || existsb (fun f => String.eqb p (fst f)) files;
     fs_lines := fun p => option_map readlines (dict_get files p) |}.

Definition home_michael : Path := Path_of "/home/michael".

(* ================================================================== *)
(** ** Notions used to state the properties *)
(* ================================================================== *)

(** The existing candidate files of a directory list, in the order in which
    both passes of [lookup_icon] visit them: subdirectory order, then
    extension order. *)
Definition existing_files (fs : FileSystem) (iconname : string)
    (dirs : list ThemeSubdirectory) : list (ThemeSubdirectory * string) :=
  flat_map
    (fun subdir =>
       map (fun extension => (subdir, icon_filename subdir iconname extension))
         (filter (fun extension => fs_exists fs (icon_filename subdir iconname extension))
            extensions))
    dirs.

(** A subdirectory record as [ThemeSubdirectory.__init__] leaves it. *)
Definition fixed_subdir (rel : string) (sz sc : Z) : ThemeSubdirectory :=
  mkSubdir (Path_of rel) (Path_of "/usr/share/icons/T") (Some Fixed) (Some sz) None None
    (Some sc).
Definition scalable_subdir (rel : string) (sz lo hi sc : Z) : ThemeSubdirectory :=
  mkSubdir (Path_of rel) (Path_of "/usr/share/icons/T") (Some Scalable) (Some sz)
    (Some lo) (Some hi) (Some sc).
(** [Type] absent or neither [Fixed] nor [Scalable] (e.g. [Threshold]). *)
Definition untyped_subdir (rel : string) (sz sc : Z) : ThemeSubdirectory :=
  mkSubdir (Path_of rel) (Path_of "/usr/share/icons/T") None (Some sz) None None
    (Some sc).

(** One visit of the second pass of [lookup_icon] to an existing candidate:
    the candidate replaces the closest one so far when it is strictly closer. *)
Definition closest_visit (icon_size icon_scale : Z) (st : Z * option string)
    (c : ThemeSubdirectory * string) : result (Z * option string) :=
  rbind (directory_size_distance (fst c) icon_size icon_scale) (fun d =>
  if (d <? fst st)%Z then Ok (d, Some (snd c)) else Ok st).

Fixpoint closest_visits (icon_size icon_scale : Z)
    (cands : list (ThemeSubdirectory * string)) (st : Z * option string)
  : result (Z * option string) :=
  match cands with
  | [] => Ok st
  | c :: cands' =>
      rbind (closest_visit icon_size icon_scale st c)
        (closest_visits icon_size icon_scale cands')
  end.

(** A theme object with the given subdirectories and no [Inherits] line. *)
Definition theme_T (dirs : list ThemeSubdirectory) : Theme :=
  mkTheme (Path_of "/usr/share/icons/T") (Path_of "/usr/share/icons/T/index.theme")
    None (Some dirs).

(** Theme [T] with Fixed subdirectories of 48 and 96 pixels, the icon [X]
    present in both. *)
Definition index_T_48_96 : string := "[Icon Theme]
Name=T
Directories=48x48,96x96

[48x48]
Size=48
Type=Fixed

[96x96]
Size=96
Type=Fixed
".

Definition fs_T_48_96 : FileSystem :=
  installation
    ["/usr/share/icons/T"; "/usr/share/icons/T/48x48"; "/usr/share/icons/T/96x96"]
    [("/usr/share/icons/T/index.theme", index_T_48_96);
     ("/usr/share/icons/T/48x48/X.png", "");
     ("/usr/share/icons/T/96x96/X.png", "")].

(** Theme [T] whose only subdirectory has [Type=Threshold], the icon present. *)
Definition index_T_threshold : string := "[Icon Theme]
Name=T
Directories=48x48

[48x48]
Size=48
Type=Threshold
".

Definition fs_T_threshold : FileSystem :=
  installation
    ["/usr/share/icons/T"; "/usr/share/icons/T/48x48"]
    [("/usr/share/icons/T/index.theme", index_T_threshold);
     ("/usr/share/icons/T/48x48/X.png", "")].

(** A computation that leaves [THEME_CACHE] as it found it. *)
Definition keeps_cache {A} (m : M A) : Prop :=
  forall w, THEME_CACHE (snd (m w)) = THEME_CACHE w.

(** The stripped lines that the loop of [Theme.__init__] reads: those before
    the first section header other than ["[Icon Theme]"]. *)
Fixpoint scanned_lines (lines : list string) : list string :=
  match lines with
  | [] => []
  | raw :: rest =>
      let line := Py.strip raw in
      if Py.startswith line "[" && negb (String.eqb line "[Icon Theme]") then []
      else line :: scanned_lines rest
  end.

(** The scanned part of an index file has a line [key=value]. *)
Definition declares (key value : string) (lines : list string) : Prop :=
  exists line, In line (scanned_lines lines) /\ Py.split line "=" = [key; value].





Definition dir_A : Path := Path_of "/usr/share/icons/A".
Definition dir_B : Path := Path_of "/usr/share/icons/B".

(** Theme [N] whose index file has no [Directories] line. *)
Definition index_N : string := "[Icon Theme]
Name=N
Comment=no directories declared

[48x48]
Size=48
Type=Fixed
".

Definition fs_N : FileSystem :=
  installation
    ["/usr/share/icons/N"; "/usr/share/icons/N/48x48"]
    [("/usr/share/icons/N/index.theme", index_N);
     ("/usr/share/icons/N/48x48/X.png", "")].

Definition dir_N : Path := Path_of "/usr/share/icons/N".

(** Theme [A] inherits [B]; [A] declares one subdirectory and holds no icon
    [X]; [B] holds [X] in a subdirectory that matches size 64 exactly. *)
Definition index_A : string := "[Icon Theme]
Name=A
Inherits=B
Directories=48x48

[48x48]
Size=48
Type=Fixed
".

Definition index_B : string := "[Icon Theme]
Name=B
Directories=64x64

[64x64]
Size=64
Type=Fixed
".

Definition fs_A_B : FileSystem :=
  installation
    ["/usr/share/icons/A"; "/usr/share/icons/A/48x48";
     "/usr/share/icons/B"; "/usr/share/icons/B/64x64"]
    [("/usr/share/icons/A/index.theme", index_A);
     ("/usr/share/icons/B/index.theme", index_B);
     ("/usr/share/icons/B/64x64/X.png", "")].

Definition theme_B : Theme :=
  mkTheme dir_B (dir_B // "index.theme") None
    (Some [mkSubdir (Path_of "64x64") dir_B (Some Fixed) (Some 64%Z) None None
             (Some 1%Z)]).

Definition theme_A : Theme :=
  mkTheme dir_A (dir_A // "index.theme") (Some [theme_B])
    (Some [mkSubdir (Path_of "48x48") dir_A (Some Fixed) (Some 48%Z) None None
             (Some 1%Z)]).

(** Theme [A] as above without parents, and the fallback theme [hicolor]
    holding the icon [X] at an exact match. *)
Definition index_A_alone : string := "[Icon Theme]
Name=A
Directories=48x48

[48x48]
Size=48
Type=Fixed
".

Definition index_hicolor : string := "[Icon Theme]
Name=Hicolor
Directories=64x64

[64x64]
Size=64
Type=Fixed
".

Definition fs_A_hicolor : FileSystem :=
  installation
    ["/usr/share/icons/A"; "/usr/share/icons/A/48x48";
     "/usr/share/icons/hicolor"; "/usr/share/icons/hicolor/64x64"]
    [("/usr/share/icons/A/index.theme", index_A_alone);
     ("/usr/share/icons/hicolor/index.theme", index_hicolor);
     ("/usr/share/icons/hicolor/64x64/X.png", "")].

(** Theme [P] names the parents [ghost], which is not installed, and [B];
    [P] itself and [hicolor] hold the icon [X] at an exact match. *)
Definition index_P : string := "[Icon Theme]
Name=P
Inherits=ghost,B
Directories=64x64

[64x64]
Size=64
Type=Fixed
".

Definition fs_P_ghost : FileSystem :=
  installation
    ["/usr/share/icons/P"; "/usr/share/icons/P/64x64";
     "/usr/share/icons/B"; "/usr/share/icons/B/64x64";
     "/usr/share/icons/hicolor"; "/usr/share/icons/hicolor/64x64"]
    [("/usr/share/icons/P/index.theme", index_P);
     ("/usr/share/icons/B/index.theme", index_B);
     ("/usr/share/icons/hicolor/index.theme", index_hicolor);
     ("/usr/share/icons/P/64x64/X.png", "");
     ("/usr/share/icons/B/64x64/X.png", "");
     ("/usr/share/icons/hicolor/64x64/X.png", "")].

Definition dir_P : Path := Path_of "/usr/share/icons/P".

(* ================================================================== *)
(** ** The index file as sections of key/value pairs *)
(* ================================================================== *)

(** The [key=value] pair of a stripped line: exactly one ["="]. *)
Definition key_value (line : string) : option (string * string) :=
  match Py.split line "=" with
  | [k; v] => Some (k, v)
  | _ => None
  end.

Fixpoint key_values (lines : list string) : list (string * string) :=
  match lines with
  | [] => []
  | line :: rest =>
      match key_value line with
      | Some kv => kv :: key_values rest
      | None => key_values rest
      end
  end.

(** The stripped lines up to the next section header. *)
Fixpoint until_header (lines : list string) : list string :=
  match lines with
  | [] => []
  | raw :: rest =>
      if Py.startswith (Py.strip raw) "[" then []
      else Py.strip raw :: until_header rest
  end.

(** The body of the first section whose header line is [header]. *)
Fixpoint section_lines (header : string) (lines : list string) : list string :=
  match lines with
  | [] => []
  | raw :: rest =>
      if String.eqb (Py.strip raw) header then until_header rest
      else section_lines header rest
  end.




Definition numeric_key (k : string) : bool :=
  String.eqb k "Size" || String.eqb k "MinSize" || String.eqb k "MaxSize"
  || String.eqb k "Scale".

(** Every value of a numeric key is an integer literal. *)
Definition numeric_ok (kvs : list (string * string)) : bool :=
  forallb (fun kv =>
             if numeric_key (fst kv)
             then match Py.int (snd kv) with Some _ => true | None => false end
             else true)
    kvs.


(** The key/value pairs of the section of subdirectory [relpath]. *)
Definition section_pairs (relpath : Path) (lines : list string)
  : list (string * string) :=
  key_values (section_lines ("[" ++ Path_str relpath ++ "]") lines).


(** The [Inherits] and [Directories] assignments of the scanned part of an
    index file, in file order. *)
Definition theme_key (kv : string * string) : bool :=
  String.eqb (fst kv) "Inherits" || String.eqb (fst kv) "Directories".

Definition theme_keys (lines : list string) : list (string * string) :=
  filter theme_key (key_values (scanned_lines lines)).

(** The [if k == "Type" ... elif ...] chain over the pairs of a section. *)
Fixpoint assign_pairs (kvs : list (string * string)) (self : ThemeSubdirectory)
  : result ThemeSubdirectory :=
  match kvs with
  | [] => Ok self
  | (k, v) :: rest => rbind (subdir_key self k v) (assign_pairs rest)
  end.


(** The two [if] statements of [Theme.__init__] over the [Inherits] and
    [Directories] assignments of the file. *)
Fixpoint Theme_assigns (fs : FileSystem) (mk : string -> M Theme)
    (kvs : list (string * string)) (self : Theme) : M Theme :=
  match kvs with
  | [] => ret self
  | (k, v) :: rest =>
      self1 <- (if String.eqb k "Inherits"
                then ps <- comprehension mk (Py.split v ",") ;;
                     ret (set_parents self ps)
                else ret self) ;;
      self2 <- (if String.eqb k "Directories"
                then ds <- comprehension
                             (fun relpath =>
                                ThemeSubdirectory_init fs (Path_of relpath) self1)
                             (Py.split v ",") ;;
                     ret (set_directories self1 ds)
                else ret self1) ;;
      Theme_assigns fs mk rest self2
  end.

(** The world after [n] more openings of the file [p]. *)
Definition opening (p : Path) (n : nat) (w : World) : World :=
  {| THEME_CACHE := THEME_CACHE w; opened := opened w ++ repeat (Path_str p) n |}.






(* ================================================================== *)
(** ** Notions used for the resolver *)
(* ================================================================== *)

(** [directory_matches_size] returned a true value. *)
Definition matches (icon_size icon_scale : Z) (subdir : ThemeSubdirectory) : bool :=
  match directory_matches_size subdir icon_size icon_scale with
  | Ok m => truthy m
  | Raise _ => false
  end.

(** The existing candidate files in subdirectories that match the request
    exactly, in visiting order. *)
Definition exact_candidates (fs : FileSystem) (iconname : string)
    (icon_size icon_scale : Z) (dirs : list ThemeSubdirectory)
  : list (ThemeSubdirectory * string) :=
  filter (fun c => matches icon_size icon_scale (fst c))
    (existing_files fs iconname dirs).

(** The size matcher returns (it does not raise) on every subdirectory. *)
Definition comparable (icon_size icon_scale : Z) (dirs : list ThemeSubdirectory)
  : Prop :=
  forall subdir, In subdir dirs ->
    exists m, directory_matches_size subdir icon_size icon_scale = Ok m.

(** Theme [V] whose one subdirectory has a [Size] that is no integer. *)
Definition index_V : string := "[Icon Theme]
Name=V
Directories=48x48

[48x48]
Size=large
Type=Fixed
".

Definition fs_V : FileSystem :=
  installation
    ["/usr/share/icons/V"; "/usr/share/icons/V/48x48"]
    [("/usr/share/icons/V/index.theme", index_V);
     ("/usr/share/icons/V/48x48/X.png", "")].

Definition dir_V : Path := Path_of "/usr/share/icons/V".

(** The call ended because the recursion limit was hit. *)
Definition limit {A} (r : result A) : bool :=
  match r with
  | Raise RecursionError => true
  | _ => false
  end.

(** [m'] behaves as [m] wherever [m] does not hit the recursion limit. *)
Definition refines {A} (m m' : M A) : Prop :=
  forall w, limit (fst (m w)) = false -> m' w = m w.

(** A computation that, from any state with an empty cache, returns what it
    returns in the freshly loaded module and opens the same files. *)
Definition repeatable {A} (m : M A) : Prop :=
  forall w, THEME_CACHE w = [] ->
    m w = (fst (m initial_world),
           {| THEME_CACHE := [];
              opened := opened w ++ opened (snd (m initial_world)) |}).





(* ================================================================== *)
(** ** The script around the resolver: [get_theme_name], [generate_icon] *)
(* ================================================================== *)

(** [s.rstrip("/")] *)
Fixpoint rstrip_slash (s : string) : string :=
  match s with
  | EmptyString => EmptyString
  | String c s' =>
      match rstrip_slash s' with
      | EmptyString => if Ascii.eqb c "/" then EmptyString else String c EmptyString
      | r => String c r
      end
  end.

(** [os.path.expanduser("~" + rest)] for [rest] empty or starting with a
    slash, [userhome] being the home directory of the environment. *)
Definition expanduser (userhome rest : string) : string :=
  match rstrip_slash userhome ++ rest with
  | EmptyString => "/"
  | s => s
  end.

(** [Path.home()] *)
Definition Path_home (userhome : string) : Path := Path_of (expanduser userhome "").

(** [p.name]: the last component, the empty string if there is none. *)
Definition Path_name (p : Path) : string := last (parts p) "".

(** [name.rfind(".")] *)
Fixpoint rfind_dot (s : string) : option nat :=
  match s with
  | EmptyString => None
  | String c s' =>
      match rfind_dot s' with
      | Some i => Some (S i)
      | None => if Ascii.eqb c "." then Some O else None
      end
  end.

(** [p.suffix]: the last dot of the name and what follows it, unless the
    dot is the first or the last character of the name. *)
Definition Path_suffix (p : Path) : string :=
  let name := Path_name p in
  match rfind_dot name with
  | Some i =>
      if (0 <? i)%nat && (i <? String.length name - 1)%nat
      then substring i (String.length name - i) name
      else ""
  | None => ""
  end.

(** [p.absolute()] in the working directory [cwd]. *)
Definition Path_absolute (cwd p : Path) : Path :=
  if String.eqb (root p) "" then Path_div cwd p else p.

(** [str(n)] of an [int]. *)
Definition str_int (n : Z) : string := NilZero.string_of_int (Z.to_int n).

(** What the script does to its environment besides opening files. *)
Inductive event : Type :=
| System (command : string)          (* [os.system(command)] *)
| CopyFile (src dst : string)        (* [shutil.copyfile(src, dst)] *)
| Print (text : string).             (* [print(text)] *)

(** The outcome of a call at the level of the script: the exceptions of the
    resolver and [IndexError]. *)
Inductive script_result (A : Type) : Type :=
| Returns (a : A)
| Raises (e : exn)
| RaisesIndexError.
Arguments Returns {A} a.
Arguments Raises {A} e.
Arguments RaisesIndexError {A}.

(** [convert_svg_to_png]: the command handed to [os.system]. *)
Definition convert_svg_to_png (input_path output_path : Path) (resolution : Z) : event :=
  System ("inkscape -w " ++ str_int resolution ++ " -h " ++ str_int resolution ++ " "
          ++ Path_str input_path ++ " -o " ++ Path_str output_path).

(** The loop of [get_theme_name]: after a line [[Icons]] the next line is
    consumed with [next(f, "")] and its second ["="]-field becomes the theme
    name. *)
Fixpoint Icons_scan (lines : list string) (theme : string) : script_result string :=
  match lines with
  | [] => Returns theme
  | line :: rest =>
      if String.eqb (Py.strip line) "[Icons]" then
        match rest with
        | [] =>
            match nth_error (Py.split (Py.strip "") "=") 1 with
            | Some v => Returns v
            | None => RaisesIndexError
            end
        | next :: rest' =>
            match nth_error (Py.split (Py.strip next) "=") 1 with
            | Some v => Icons_scan rest' v
            | None => RaisesIndexError
            end
        end
      else Icons_scan rest theme
  end.

Section Script.

Variable fs : FileSystem.
(** The home directory of the environment, and [os.getcwd()]. *)
Variable userhome : string.
Variable cwd : Path.

(** [get_theme_name] *)
Definition get_theme_name (w : World) : script_result string * World :=
  let kdeglobals := expanduser userhome "/.config/kdeglobals" in
  match fs_lines fs kdeglobals with
  | Some lines =>
      (Icons_scan lines "",
       {| THEME_CACHE := THEME_CACHE w; opened := opened w ++ [kdeglobals] |})
  | None => (Raises OSError, w)
  end.

(** [generate_icon]; [depth] is the recursion depth left to the resolver. *)
Definition generate_icon (depth : nat) (output_path : Path) (w : World)
  : script_result event * World :=
  match get_theme_name w with
  | (Returns theme_name, w1) =>
      match find_icon fs (Path_home userhome) depth theme_name "utilities-terminal" 64 1 w1
      with
      | (Ok (Some filename), w2) =>
          let icon_path := Path_of filename in
          if String.eqb (Path_suffix icon_path) ".svg" then
            (Returns (convert_svg_to_png icon_path output_path 64), w2)
          else if String.eqb (Path_suffix icon_path) ".png" then
            (Returns (CopyFile (Path_str (Path_absolute cwd icon_path))
                        (Path_str (Path_absolute cwd output_path))), w2)
          else (Returns (Print "unknown file type"), w2)
      | (Ok None, w2) => (Raises TypeError, w2)   (* [Path(None)] *)
      | (Raise e, w2) => (Raises e, w2)
      end
  | (Raises e, w1) => (Raises e, w1)
  | (RaisesIndexError, w1) => (RaisesIndexError, w1)
  end.

End Script.

(** A path as [Path(...)] and [/] build it: the root is one of the three
    roots, no component is empty, a dot, or holds a slash. *)
Definition component_ok (c : string) : bool :=
  path_component c
  && match Py.split c "/" with [_] => true | _ => false end.

Definition Path_ok (p : Path) : Prop :=
  (root p = "" \/ root p = "/" \/ root p = "//")
  /\ forallb component_ok (parts p) = true.

(** A KDE configuration that names the icon theme [T]. *)
Definition kdeglobals_T : string := "[General]
ColorScheme=Breeze

[Icons]
Theme=T

[KDE]
SingleClick=false
".

Definition fs_kde (files : list (string * string)) : FileSystem :=
  installation
    ["/usr/share/icons/T"; "/usr/share/icons/T/48x48"; "/usr/share/icons/T/96x96"]
    (("/home/michael/.config/kdeglobals", kdeglobals_T)
       :: ("/usr/share/icons/T/index.theme", index_T_48_96) :: files).

(* ================================================================== *)
(** * Properties *)
(* ================================================================== *)

(** ** SizeMatcher *)

Lemma py_eq_true (a : option Z) (b : Z) : py_eq a b = true <-> a = Some b.
Proof.
  destruct a as [x|]; simpl.
  - rewrite Z.eqb_eq. split; [intros ->; reflexivity | intros [= ->]; reflexivity].
  - split; discriminate.
Qed.

Lemma py_eq_false (a : option Z) (b : Z) : py_eq a b = false <-> a <> Some b.
Proof.
  rewrite <- py_eq_true. destruct (py_eq a b); split; congruence.
Qed.

(** C7: for every subdirectory record and every request,
    [directory_matches_size] is [False] when the scales differ. At equal
    scales a Fixed subdirectory gives [True] or [False], [True] iff its size
    is the requested size; a Scalable subdirectory gives [True] iff both
    bounds are present and [min_size <= icon_size <= max_size], and raises
    [TypeError] exactly when a bound that the comparison reaches is [None].
    Over all records: the result is [True] iff the scales are equal and the
    subdirectory is Fixed with the requested size or Scalable with both
    bounds present and containing the requested size. *)
Theorem directory_matches_size_exact
    (subdir : ThemeSubdirectory) (icon_size icon_scale : Z) :
  (scale subdir <> Some icon_scale ->
     directory_matches_size subdir icon_size icon_scale = Ok (Some false))
  /\ (scale subdir = Some icon_scale -> type subdir = Some Fixed ->
      exists b, directory_matches_size subdir icon_size icon_scale = Ok (Some b)
                /\ (b = true <-> size subdir = Some icon_size))
  /\ (scale subdir = Some icon_scale -> type subdir = Some Scalable ->
      (directory_matches_size subdir icon_size icon_scale = Ok (Some true)
       <-> exists lo hi, min_size subdir = Some lo /\ max_size subdir = Some hi
                         /\ (lo <= icon_size <= hi)%Z)
      /\ (directory_matches_size subdir icon_size icon_scale = Raise TypeError
          <-> min_size subdir = None
              \/ exists lo, min_size subdir = Some lo /\ (lo <= icon_size)%Z
                            /\ max_size subdir = None)
      /\ (directory_matches_size subdir icon_size icon_scale = Ok (Some true)
          \/ directory_matches_size subdir icon_size icon_scale = Ok (Some false)
          \/ directory_matches_size subdir icon_size icon_scale = Raise TypeError))
  /\ (directory_matches_size subdir icon_size icon_scale = Ok (Some true)
      <-> scale subdir = Some icon_scale
          /\ ((type subdir = Some Fixed /\ size subdir = Some icon_size)
              \/ (type subdir = Some Scalable
                  /\ exists lo hi, min_size subdir = Some lo /\ max_size subdir = Some hi
                                    /\ (lo <= icon_size <= hi)%Z))).
Proof.
  assert (Scal : scale subdir = Some icon_scale -> type subdir = Some Scalable ->
            (directory_matches_size subdir icon_size icon_scale = Ok (Some true)
             <-> exists lo hi, min_size subdir = Some lo /\ max_size subdir = Some hi
                               /\ (lo <= icon_size <= hi)%Z)
            /\ (directory_matches_size subdir icon_size icon_scale = Raise TypeError
                <-> min_size subdir = None
                    \/ exists lo, min_size subdir = Some lo /\ (lo <= icon_size)%Z
                                  /\ max_size subdir = None)
            /\ (directory_matches_size subdir icon_size icon_scale = Ok (Some true)
                \/ directory_matches_size subdir icon_size icon_scale = Ok (Some false)
                \/ directory_matches_size subdir icon_size icon_scale = Raise TypeError)).
  { intros Hs Ht. unfold directory_matches_size.
    apply py_eq_true in Hs. rewrite Hs, Ht. cbn [negb].
    destruct (min_size subdir) as [lo|].
    - destruct (Z.leb_spec lo icon_size) as [Hle|Hlt].
      + destruct (max_size subdir) as [hi|].
        * destruct (Z.leb_spec icon_size hi) as [Hhi|Hhi].
          -- split; [|split].
             ++ split; [intros _; exists lo, hi; repeat split; assumption | reflexivity].
             ++ split; [discriminate|].
                intros [H|(lo' & _ & _ & H)]; discriminate.
             ++ left. reflexivity.
          -- split; [|split].
             ++ split; [discriminate|].
                intros (lo' & hi' & [= <-] & [= <-] & H). lia.
             ++ split; [discriminate|].
                intros [H|(lo' & _ & _ & H)]; discriminate.
             ++ right. left. reflexivity.
        * split; [|split].
          -- split; [discriminate|]. intros (lo' & hi' & _ & H & _). discriminate.
          -- split; [|reflexivity]. intros _. right. exists lo.
             repeat split; assumption.
          -- right. right. reflexivity.
      + split; [|split].
        * split; [discriminate|]. intros (lo' & hi' & [= <-] & _ & H). lia.
        * split; [discriminate|].
          intros [H|(lo' & [= <-] & H & _)]; [discriminate | lia].
        * right. left. reflexivity.
    - split; [|split].
      + split; [discriminate|]. intros (lo' & hi' & H & _). discriminate.
      + split; [|reflexivity]. intros _. left. reflexivity.
      + right. right. reflexivity. }
  split; [|split; [|split]].
  - intros Hs. unfold directory_matches_size. apply py_eq_false in Hs. rewrite Hs.
    reflexivity.
  - intros Hs Ht. unfold directory_matches_size. apply py_eq_true in Hs.
    rewrite Hs, Ht. cbn [negb].
    eexists; split; [reflexivity | apply py_eq_true].
  - exact Scal.
  - split.
    + intros H.
      destruct (py_eq (scale subdir) icon_scale) eqn:Hs.
      * apply py_eq_true in Hs. split; [exact Hs|].
        destruct (type subdir) as [[|]|] eqn:Ht.
        -- left. split; [reflexivity|].
           unfold directory_matches_size in H.
           rewrite (proj2 (py_eq_true _ _) Hs), Ht in H. cbn [negb] in H.
           injection H as H. apply py_eq_true. exact H.
        -- right. split; [reflexivity|]. apply (proj1 (Scal Hs eq_refl)). exact H.
        -- unfold directory_matches_size in H.
           rewrite (proj2 (py_eq_true _ _) Hs), Ht in H. discriminate.
      * unfold directory_matches_size in H. rewrite Hs in H. discriminate.
    + intros (Hs & [(Ht & Hn)|(Ht & Hb)]).
      * unfold directory_matches_size.
        rewrite (proj2 (py_eq_true _ _) Hs), Ht, (proj2 (py_eq_true _ _) Hn).
        reflexivity.
      * apply (proj1 (Scal Hs Ht)). exact Hb.
Qed.

(** The Scalable subdirectory 16..48 at scale 1 matches 16, 32 and 48 exactly
    and does not match 64; a Scalable record without [MaxSize], as the parser
    leaves it for a section without that key, raises. *)
Lemma directory_matches_size_exact_witness :
  directory_matches_size (scalable_subdir "scalable" 32 16 48 1) 16 1 = Ok (Some true)
  /\ directory_matches_size (scalable_subdir "scalable" 32 16 48 1) 32 1 = Ok (Some true)
  /\ directory_matches_size (scalable_subdir "scalable" 32 16 48 1) 48 1 = Ok (Some true)
  /\ directory_matches_size (scalable_subdir "scalable" 32 16 48 1) 64 1 = Ok (Some false)
  /\ directory_matches_size (scalable_subdir "scalable" 32 16 48 1) 32 2 = Ok (Some false)
  /\ directory_matches_size (fixed_subdir "48x48" 48 1) 48 1 = Ok (Some true)
  /\ directory_matches_size (fixed_subdir "48x48" 48 1) 47 1 = Ok (Some false)
  /\ directory_matches_size
       (mkSubdir (Path_of "scalable") (Path_of "/usr/share/icons/T") (Some Scalable)
          (Some 32%Z) (Some 16%Z) None (Some 1%Z)) 32 1
     = Raise TypeError.
Proof.
  pose proof (directory_matches_size_exact (scalable_subdir "scalable" 32 16 48 1)) as S.
  pose proof (directory_matches_size_exact (fixed_subdir "48x48" 48 1)) as F.
  assert (in_range : forall n, (16 <= n <= 48)%Z ->
            directory_matches_size (scalable_subdir "scalable" 32 16 48 1) n 1
            = Ok (Some true)).
  { intros n Hn. destruct (S n 1%Z) as (_ & _ & Sc & _).
    apply (proj1 (Sc eq_refl eq_refl)). exists 16%Z, 48%Z.
    repeat split; try reflexivity; lia. }
  split; [|split; [|split; [|split; [|split; [|split; [|split]]]]]].
  - apply in_range; lia.
  - apply in_range; lia.
  - apply in_range; lia.
  - destruct (S 64%Z 1%Z) as (_ & _ & Sc & _).
    destruct (Sc eq_refl eq_refl) as (Ht & Hr & [H|[H|H]]); [|exact H|].
    + apply Ht in H. destruct H as (lo & hi & Hlo & Hhi & Hrange).
      injection Hlo as <-. injection Hhi as <-. lia.
    + apply Hr in H. destruct H as [H|(lo & _ & _ & H)]; discriminate.
  - destruct (S 32%Z 2%Z) as (Sd & _). apply Sd. discriminate.
  - destruct (F 48%Z 1%Z) as (_ & _ & _ & All). apply All.
    split; [reflexivity|]. left. split; reflexivity.
  - destruct (F 47%Z 1%Z) as (_ & Fx & _).
    destruct (Fx eq_refl eq_refl) as (b & E & Hb).
    rewrite E. destruct b; [|reflexivity]. destruct Hb as [Hb _].
    specialize (Hb eq_refl). discriminate.
  - destruct (directory_matches_size_exact
                (mkSubdir (Path_of "scalable") (Path_of "/usr/share/icons/T")
                   (Some Scalable) (Some 32%Z) (Some 16%Z) None (Some 1%Z)) 32 1)
      as (_ & _ & Sc & _).
    apply (proj1 (proj2 (Sc eq_refl eq_refl))). right. exists 16%Z.
    repeat split; try reflexivity. lia.
Defined.

(** ** The distance and the closest match *)



Section Closest.

Variables (fs : FileSystem) (iconname : string) (icon_size icon_scale : Z).

Lemma closest_visits_app (l1 l2 : list (ThemeSubdirectory * string))
    (st : Z * option string) :
  closest_visits icon_size icon_scale (l1 ++ l2) st =
  rbind (closest_visits icon_size icon_scale l1 st)
    (closest_visits icon_size icon_scale l2).
Proof.
  revert st. induction l1 as [|c l1 IH]; intros st; simpl; [reflexivity|].
  destruct (closest_visit icon_size icon_scale st c) as [st'|e]; simpl;
    [apply IH | reflexivity].
Qed.

(** The inner loop visits the existing files of one subdirectory. *)
Lemma closest_in_subdir_visits (subdir : ThemeSubdirectory) (exts : list string)
    (st : Z * option string) :
  closest_in_subdir fs iconname icon_size icon_scale subdir exts st =
  closest_visits icon_size icon_scale
    (map (fun extension => (subdir, icon_filename subdir iconname extension))
       (filter (fun extension => fs_exists fs (icon_filename subdir iconname extension))
          exts))
    st.
Proof.
  revert st. induction exts as [|x exts IH]; intros st; simpl; [reflexivity|].
  destruct (fs_exists fs (icon_filename subdir iconname x)); simpl; [|apply IH].
  unfold closest_visit; simpl.
  destruct (directory_size_distance subdir icon_size icon_scale) as [d|e]; simpl;
    [|reflexivity].
  destruct (d <? fst st)%Z; simpl; apply IH.
Qed.

(** The second pass is a left-to-right scan of [existing_files]. *)
Lemma closest_pass_visits (dirs : list ThemeSubdirectory) (st : Z * option string) :
  closest_pass fs iconname icon_size icon_scale dirs st =
  closest_visits icon_size icon_scale (existing_files fs iconname dirs) st.
Proof.
  revert st. induction dirs as [|subdir dirs IH]; intros st; [reflexivity|].
  change (closest_pass fs iconname icon_size icon_scale (subdir :: dirs) st)
    with (rbind (closest_in_subdir fs iconname icon_size icon_scale subdir extensions st)
            (closest_pass fs iconname icon_size icon_scale dirs)).
  change (existing_files fs iconname (subdir :: dirs))
    with (map (fun extension => (subdir, icon_filename subdir iconname extension))
            (filter (fun extension =>
                       fs_exists fs (icon_filename subdir iconname extension))
               extensions)
          ++ existing_files fs iconname dirs)%list.
  rewrite closest_visits_app, closest_in_subdir_visits.
  destruct (closest_visits _ _ _ st) as [st'|e]; simpl; [apply IH | reflexivity].
Qed.


(** Candidates that are not closer than the current one never replace it. *)
Lemma closest_visits_not_closer (post : list (ThemeSubdirectory * string))
    (k : Z) (f : string) :
  (forall c, In c post ->
     exists k', directory_size_distance (fst c) icon_size icon_scale = Ok k'
                /\ (k <= k')%Z) ->
  closest_visits icon_size icon_scale post (k, Some f) = Ok (k, Some f).
Proof.
  induction post as [|c post IH]; intros Hpost; simpl; [reflexivity|].
  destruct (Hpost c (or_introl eq_refl)) as (k' & Hk' & Hle).
  unfold closest_visit. rewrite Hk'. simpl.
  destruct (Z.ltb_spec k' k) as [Hlt|_]; [lia|]. simpl.
  apply IH. intros c' Hc'. apply Hpost. right. exact Hc'.
Qed.


End Closest.

(** ** The state monad and the cache *)

Lemma bind_Ok_inv {A B} (m : M A) (k : A -> M B) (w w2 : World) (b : B) :
  bind m k w = (Ok b, w2) ->
  exists a w1, m w = (Ok a, w1) /\ k a w1 = (Ok b, w2).
Proof.
  unfold bind. destruct (m w) as [[a|e] w1]; intros H.
  - exists a, w1. split; [reflexivity | exact H].
  - discriminate.
Qed.

Lemma bind_Ok {A B} (m : M A) (k : A -> M B) (w w1 : World) (a : A) :
  m w = (Ok a, w1) -> bind m k w = k a w1.
Proof. unfold bind. intros ->. reflexivity. Qed.

Lemma bind_Raise {A B} (m : M A) (k : A -> M B) (w w1 : World) (e : exn) :
  m w = (Raise e, w1) -> bind m k w = (Raise e, w1).
Proof. unfold bind. intros ->. reflexivity. Qed.

Lemma bind_ext {A B} (m : M A) (k k' : A -> M B) (w : World) :
  (forall a w1, k a w1 = k' a w1) -> bind m k w = bind m k' w.
Proof.
  intros H. unfold bind. destruct (m w) as [[a|e] w1]; [apply H | reflexivity].
Qed.

Lemma not_Ok_Raise {A} (r : result A * World) :
  (forall a w, r <> (Ok a, w)) -> exists e w, r = (Raise e, w).
Proof.
  destruct r as [[a|e] w]; intros H.
  - exfalso. exact (H a w eq_refl).
  - exists e, w. reflexivity.
Qed.

Lemma keeps_cache_ret {A} (a : A) : keeps_cache (ret a).
Proof. intros w. reflexivity. Qed.

Lemma keeps_cache_raise {A} (e : exn) : keeps_cache (@raise A e).
Proof. intros w. reflexivity. Qed.

Lemma keeps_cache_lift {A} (r : result A) : keeps_cache (lift r).
Proof. intros w. reflexivity. Qed.

Lemma keeps_cache_bind {A B} (m : M A) (k : A -> M B) :
  keeps_cache m -> (forall a, keeps_cache (k a)) -> keeps_cache (bind m k).
Proof.
  intros Hm Hk w. unfold bind. specialize (Hm w).
  destruct (m w) as [[a|e] w1]; simpl in *.
  - rewrite (Hk a w1). exact Hm.
  - exact Hm.
Qed.

Lemma keeps_cache_comprehension {A B} (f : A -> M B) (xs : list A) :
  (forall x, keeps_cache (f x)) -> keeps_cache (comprehension f xs).
Proof.
  intros Hf. induction xs as [|x xs IH]; simpl.
  - apply keeps_cache_ret.
  - apply keeps_cache_bind; [apply Hf|]. intros y.
    apply keeps_cache_bind; [exact IH|]. intros ys. apply keeps_cache_ret.
Qed.

Create HintDb cache.
#[local] Hint Resolve keeps_cache_ret keeps_cache_raise keeps_cache_lift
  keeps_cache_bind keeps_cache_comprehension : cache.

Section Cache.

Variables (fs : FileSystem) (home : Path).

Lemma keeps_cache_open (p : Path) : keeps_cache (open_ fs p).
Proof.
  intros w. unfold open_. destruct (fs_lines fs (Path_str p)); reflexivity.
Qed.

Lemma keeps_cache_ThemeSubdirectory_init (rp : Path) (theme : Theme) :
  keeps_cache (ThemeSubdirectory_init fs rp theme).
Proof.
  unfold ThemeSubdirectory_init.
  apply keeps_cache_bind; [apply keeps_cache_open|]. intros lines.
  apply keeps_cache_bind; [apply keeps_cache_lift|]. intros self.
  apply keeps_cache_ret.
Qed.

Lemma keeps_cache_Theme_scan (mk : string -> M Theme) :
  (forall n, keeps_cache (mk n)) ->
  forall lines self, keeps_cache (Theme_scan fs mk lines self).
Proof.
  intros Hmk. induction lines as [|raw rest IH]; intros self; simpl.
  - apply keeps_cache_ret.
  - destruct (_ && _); [apply keeps_cache_ret|].
    destruct (Py.split (Py.strip raw) "=") as [|k [|v [|x l]]]; try apply IH.
    apply keeps_cache_bind.
    { destruct (String.eqb k "Inherits"); auto with cache. }
    intros self1. apply keeps_cache_bind.
    { destruct (String.eqb k "Directories"); [|apply keeps_cache_ret].
      apply keeps_cache_bind; [|intros; apply keeps_cache_ret].
      apply keeps_cache_comprehension. intros x.
      apply keeps_cache_ThemeSubdirectory_init. }
    intros self2. apply IH.
Qed.

Lemma keeps_cache_check_cache (ctor : option Path -> M Theme) (d : option Path) :
  (forall d', keeps_cache (ctor d')) ->
  keeps_cache (check_cache_before_creation ctor d).
Proof.
  intros H w. unfold check_cache_before_creation.
  destruct (dict_get (THEME_CACHE w) (str_directory d)); [reflexivity | apply H].
Qed.

(** No constructor call ever stores into [THEME_CACHE]. *)
Lemma keeps_cache_Theme_init (depth : nat) (d : option Path) :
  keeps_cache (Theme_init fs home depth d).
Proof.
  revert d. induction depth as [|depth IH]; intros d; simpl.
  - apply keeps_cache_raise.
  - destruct d as [d|]; [|apply keeps_cache_raise].
    apply keeps_cache_bind; [apply keeps_cache_open|]. intros lines.
    apply keeps_cache_Theme_scan. intros n.
    apply keeps_cache_check_cache. exact IH.
Qed.

Lemma keeps_cache_from_theme_name (depth : nat) (theme_name : string) :
  keeps_cache (from_theme_name fs home depth theme_name).
Proof.
  apply keeps_cache_check_cache. intros d. apply keeps_cache_Theme_init.
Qed.

Lemma keeps_cache_find_icon (depth : nat) (theme_name icon : string) (sz sc : Z) :
  keeps_cache (find_icon fs home depth theme_name icon sz sc).
Proof.
  unfold find_icon.
  apply keeps_cache_bind; [apply keeps_cache_from_theme_name|]. intros t.
  apply keeps_cache_bind; [apply keeps_cache_lift|]. intros [f|].
  - apply keeps_cache_ret.
  - apply keeps_cache_bind; [apply keeps_cache_from_theme_name|]. intros t'.
    apply keeps_cache_bind; [apply keeps_cache_lift|].
    intros [f|]; apply keeps_cache_ret.
Qed.

(** With an empty cache, [check_cache_before_creation] is the constructor. *)
Lemma check_cache_miss (ctor : option Path -> M Theme) (d : option Path) (w : World) :
  THEME_CACHE w = [] -> check_cache_before_creation ctor d w = ctor d w.
Proof.
  intros H. unfold check_cache_before_creation. rewrite H. reflexivity.
Qed.

End Cache.

(** ** One line of the [Theme.__init__] loop *)

Section Scan_lines.

Variables (fs : FileSystem) (mk : string -> M Theme).



End Scan_lines.

(** ** Inheritance cycles *)

Section Cycles.

Variables (fs : FileSystem) (home : Path).

(** A comprehension returns only if the body returns for every element. *)
Lemma comprehension_never_Ok {A B} (f : A -> M B) (x : A) (xs : list A) :
  (forall y, keeps_cache (f y)) ->
  (forall w, THEME_CACHE w = [] -> forall b w', f x w <> (Ok b, w')) ->
  In x xs ->
  forall w, THEME_CACHE w = [] ->
  forall bs w', comprehension f xs w <> (Ok bs, w').
Proof.
  intros Hf Hx. induction xs as [|y xs IH]; intros Hin w Hw bs w' Hok; [easy|].
  simpl in Hok. apply bind_Ok_inv in Hok. destruct Hok as (b & w1 & Hy & Hok).
  destruct Hin as [->|Hin].
  - exact (Hx w Hw b w1 Hy).
  - apply bind_Ok_inv in Hok. destruct Hok as (bs' & w2 & Hxs & _).
    refine (IH Hin w1 _ bs' w2 Hxs).
    rewrite <- Hw. pose proof (Hf y w) as K. rewrite Hy in K. exact K.
Qed.

(** The scan of an index file returns only if every theme named by every
    scanned [Inherits] line has been constructed. *)
Lemma Theme_scan_never_Ok (mk : string -> M Theme) (theme_name : string) :
  (forall n, keeps_cache (mk n)) ->
  (forall w, THEME_CACHE w = [] -> forall t w', mk theme_name w <> (Ok t, w')) ->
  forall lines v, declares "Inherits" v lines -> In theme_name (Py.split v ",") ->
  forall self w, THEME_CACHE w = [] ->
  forall t w', Theme_scan fs mk lines self w <> (Ok t, w').
Proof.
  intros Hmk Hname lines v (line & Hin & Hsplit) Hv.
  induction lines as [|raw rest IH]; intros self w Hw t w' Hok; [easy|].
  simpl in Hin, Hok.
  destruct (Py.startswith (Py.strip raw) "[" &&
            negb (String.eqb (Py.strip raw) "[Icon Theme]")); [easy|].
  destruct Hin as [Hline|Hin].
  - rewrite Hline, Hsplit in Hok. simpl in Hok.
    apply bind_Ok_inv in Hok. destruct Hok as (self1 & w1 & H1 & _).
    apply bind_Ok_inv in H1. destruct H1 as (ps & w2 & H1 & _).
    exact (comprehension_never_Ok mk theme_name _ Hmk Hname Hv w Hw ps w2 H1).
  - destruct (Py.split (Py.strip raw) "=") as [|k [|v0 [|x l]]];
      try exact (IH Hin self w Hw t w' Hok).
    apply bind_Ok_inv in Hok. destruct Hok as (self1 & w1 & H1 & Hok).
    apply bind_Ok_inv in Hok. destruct Hok as (self2 & w2 & H2 & Hok).
    refine (IH Hin self2 w2 _ t w' Hok).
    assert (K1 : THEME_CACHE w1 = THEME_CACHE w).
    { assert (K : keeps_cache
                    (if String.eqb k "Inherits"
                     then bind (comprehension mk (Py.split v0 ","))
                            (fun ps => ret (set_parents self ps))
                     else ret self))
        by (destruct (String.eqb k "Inherits"); auto with cache).
      specialize (K w). rewrite H1 in K. exact K. }
    assert (K2 : THEME_CACHE w2 = THEME_CACHE w1).
    { assert (K : keeps_cache
                    (if String.eqb k "Directories"
                     then bind (comprehension
                                  (fun rp => ThemeSubdirectory_init fs (Path_of rp) self1)
                                  (Py.split v0 ","))
                            (fun ds => ret (set_directories self1 ds))
                     else ret self1)).
      { destruct (String.eqb k "Directories"); [|apply keeps_cache_ret].
        apply keeps_cache_bind; [|intros; apply keeps_cache_ret].
        apply keeps_cache_comprehension. intros x'.
        apply keeps_cache_ThemeSubdirectory_init. }
      specialize (K w1). rewrite H2 in K. exact K. }
    congruence.
Qed.




End Cycles.









(** ** A theme without a [Directories] line *)

Section NoDirectories.

Variables (fs : FileSystem) (home : Path).

Lemma declares_cons (key v raw : string) (rest : list string) :
  Py.startswith (Py.strip raw) "[" && negb (String.eqb (Py.strip raw) "[Icon Theme]")
  = false ->
  declares key v rest -> declares key v (raw :: rest).
Proof.
  intros Hhdr (line & Hin & Hsplit). exists line. split; [|exact Hsplit].
  simpl. rewrite Hhdr. right. exact Hin.
Qed.

Lemma declares_head (key v raw : string) (rest : list string) :
  Py.startswith (Py.strip raw) "[" && negb (String.eqb (Py.strip raw) "[Icon Theme]")
  = false ->
  Py.split (Py.strip raw) "=" = [key; v] -> declares key v (raw :: rest).
Proof.
  intros Hhdr Hsplit. exists (Py.strip raw). split; [|exact Hsplit].
  simpl. rewrite Hhdr. left. reflexivity.
Qed.

(** The scan assigns [directories] only at a scanned [Directories] line. *)
Lemma Theme_scan_no_Directories (mk : string -> M Theme) (lines : list string) :
  (forall v, ~ declares "Directories" v lines) ->
  forall self w t w',
    Theme_scan fs mk lines self w = (Ok t, w') ->
    directories t = directories self.
Proof.
  induction lines as [|raw rest IH]; intros Hno self w t w' Hok.
  - injection Hok as <- _. reflexivity.
  - simpl in Hok.
    destruct (Py.startswith (Py.strip raw) "[" &&
              negb (String.eqb (Py.strip raw) "[Icon Theme]")) eqn:Hhdr.
    { injection Hok as <- _. reflexivity. }
    assert (Hrest : forall v, ~ declares "Directories" v rest).
    { intros v Hv. apply (Hno v). apply declares_cons; assumption. }
    destruct (Py.split (Py.strip raw) "=") as [|k [|v0 [|x l]]] eqn:Hsplit;
      try exact (IH Hrest self w t w' Hok).
    apply bind_Ok_inv in Hok. destruct Hok as (self1 & w1 & H1 & Hok).
    apply bind_Ok_inv in Hok. destruct Hok as (self2 & w2 & H2 & Hok).
    destruct (String.eqb_spec k "Directories") as [->|Hk].
    { exfalso. apply (Hno v0). apply declares_head; assumption. }
    injection H2 as <- <-.
    rewrite (IH Hrest self1 w1 t w' Hok).
    destruct (String.eqb k "Inherits").
    + apply bind_Ok_inv in H1. destruct H1 as (ps & w3 & _ & H1).
      injection H1 as <- _. reflexivity.
    + injection H1 as <- _. reflexivity.
Qed.

Lemma lookup_icon_None_directories (icon : string) (sz sc : Z) (t : Theme) :
  directories t = None -> lookup_icon fs icon sz sc t = Raise TypeError.
Proof. intros H. unfold lookup_icon. rewrite H. reflexivity. Qed.

Lemma find_icon_helper_None_directories (icon : string) (sz sc : Z) (t : Theme) :
  directories t = None -> find_icon_helper fs icon sz sc t = Raise TypeError.
Proof.
  intros H. destruct t as [p i ps ds]. simpl in H. subst ds. reflexivity.
Qed.

End NoDirectories.

(** C10: when the scanned part of a theme's index file has no [Directories]
    line, the constructed [Theme] has [directories = None], and every lookup
    against it ([lookup_icon], [find_icon_helper], hence [find_icon]) raises
    [TypeError] instead of returning absent. *)
Theorem Theme_without_Directories
    (fs : FileSystem) (home : Path) (depth : nat) (d : Path) (lines : list string)
    (w w' : World) (t : Theme) :
  fs_lines fs (Path_str (d // "index.theme")) = Some lines ->
  (forall v, ~ declares "Directories" v lines) ->
  Theme_init fs home depth (Some d) w = (Ok t, w') ->
  directories t = None
  /\ (forall icon size scale,
        lookup_icon fs icon size scale t = Raise TypeError
        /\ find_icon_helper fs icon size scale t = Raise TypeError)
  /\ (forall theme_name icon size scale,
        get_theme_directory fs home theme_name = Some d ->
        THEME_CACHE w = [] ->
        find_icon fs home depth theme_name icon size scale w = (Raise TypeError, w')).
Proof.
  intros Hlines Hno Hinit.
  assert (Hd : directories t = None).
  { destruct depth as [|depth]; [discriminate|]. simpl in Hinit.
    apply bind_Ok_inv in Hinit. destruct Hinit as (lines' & w1 & Hopen & Hscan).
    unfold open_ in Hopen. simpl in Hopen. rewrite Hlines in Hopen.
    injection Hopen as <- <-.
    apply Theme_scan_no_Directories in Hscan; [|exact Hno]. exact Hscan. }
  split; [exact Hd|]. split.
  - intros icon sz sc. split.
    + apply lookup_icon_None_directories; exact Hd.
    + apply find_icon_helper_None_directories; exact Hd.
  - intros theme_name icon sz sc Hdir Hw. unfold find_icon.
    erewrite bind_Ok; [|rewrite check_cache_miss, Hdir by exact Hw; exact Hinit].
    erewrite bind_Raise; [reflexivity|]. unfold lift.
    rewrite find_icon_helper_None_directories by exact Hd. reflexivity.
Qed.

Lemma no_Directories_index_N : forall v, ~ declares "Directories" v (readlines index_N).
Proof.
  intros v (line & Hin & Hsplit). vm_compute in Hin.
  repeat (destruct Hin as [<-|Hin]; [vm_compute in Hsplit; discriminate|]).
  exact Hin.
Qed.

(** Theme [N]: constructed, [directories] is [None], and looking up the icon
    it does hold raises. *)
Lemma Theme_without_Directories_witness :
  directories (mkTheme dir_N (dir_N // "index.theme") None None) = None
  /\ lookup_icon fs_N "X" 48 1 (mkTheme dir_N (dir_N // "index.theme") None None)
     = Raise TypeError
  /\ fst (find_icon fs_N home_michael 1 "N" "X" 48 1 initial_world) = Raise TypeError.
Proof.
  destruct (Theme_without_Directories fs_N home_michael 1 dir_N (readlines index_N)
              initial_world
              {| THEME_CACHE := []; opened := ["/usr/share/icons/N/index.theme"] |}
              (mkTheme dir_N (dir_N // "index.theme") None None)
              eq_refl no_Directories_index_N eq_refl)
    as (Hd & Hl & Hf).
  split; [exact Hd|]. split.
  - exact (proj1 (Hl "X" 48%Z 1%Z)).
  - rewrite (Hf "N" "X" 48%Z 1%Z eq_refl eq_refl). reflexivity.
Defined.

(** ** Subdirectory sections *)

Lemma subdir_line_key_value (self : ThemeSubdirectory) (line : string) :
  subdir_line self line
  = match key_value line with
    | Some (k, v) => subdir_key self k v
    | None => Ok self
    end.
Proof.
  unfold subdir_line, key_value.
  destruct (Py.split line "=") as [|k [|v [|x l]]]; reflexivity.
Qed.

(** Once the header has been seen, the loop assigns the pairs of the lines up
    to the next header. *)
Lemma subdir_scan_read (header : string) (lines : list string) :
  forall self,
    subdir_scan header lines true self
    = assign_pairs (key_values (until_header lines)) self.
Proof.
  induction lines as [|raw rest IH]; intros self; [reflexivity|].
  cbn [subdir_scan until_header]. cbv zeta. rewrite andb_true_l, orb_true_l.
  destruct (Py.startswith (Py.strip raw) "["); [reflexivity|].
  rewrite subdir_line_key_value. cbn [key_values].
  destruct (key_value (Py.strip raw)) as [[k v]|].
  - cbn [assign_pairs]. destruct (subdir_key self k v) as [self'|e]; [|reflexivity].
    apply IH.
  - apply IH.
Qed.

(** The loop of [ThemeSubdirectory.__init__] reads the section of its own
    header and nothing else. *)
Lemma subdir_scan_section (header : string) (lines : list string) :
  forall self,
    subdir_scan header lines false self
    = assign_pairs (key_values (section_lines header lines)) self.
Proof.
  induction lines as [|raw rest IH]; intros self; [reflexivity|].
  cbn [subdir_scan section_lines]. cbv zeta. rewrite andb_false_l, orb_false_l.
  cbn [rbind]. destruct (String.eqb (Py.strip raw) header).
  - apply subdir_scan_read.
  - apply IH.
Qed.





Section Subdirectories.

Variable fs : FileSystem.




Variable mk : string -> M Theme.

(** The loop of [Theme.__init__] acts on the [Inherits] and [Directories]
    assignments of the scanned part of the file, in file order. *)
Lemma Theme_scan_keys (lines : list string) :
  forall self w,
    Theme_scan fs mk lines self w = Theme_assigns fs mk (theme_keys lines) self w.
Proof.
  unfold theme_keys. induction lines as [|raw rest IH]; intros self w; [reflexivity|].
  cbn [Theme_scan scanned_lines]. cbv zeta.
  destruct (Py.startswith (Py.strip raw) "[" &&
            negb (String.eqb (Py.strip raw) "[Icon Theme]")); [reflexivity|].
  cbn [key_values]. unfold key_value.
  destruct (Py.split (Py.strip raw) "=") as [|k [|v [|x l]]]; try apply IH.
  cbn [filter]. unfold theme_key at 1. cbn [fst].
  destruct (String.eqb k "Inherits" || String.eqb k "Directories") eqn:Hkey.
  - cbn [Theme_assigns]. apply bind_ext. intros self1 w1.
    apply bind_ext. intros self2 w2. apply IH.
  - apply orb_false_elim in Hkey. destruct Hkey as (Hi & Hd).
    rewrite Hi, Hd. cbv [bind ret]. apply IH.
Qed.

End Subdirectories.


(** ** Sections given by their lines *)






(** ** What [lookup_icon] returns when the icon is absent *)

(** C1: theme [A] holds no file for icon [X] and inherits [B], which holds
    [X] in a subdirectory that matches size 64 exactly. The lookup in [A]
    returns the empty string instead of [None], so the parents are not
    searched and [find_icon] returns the empty string, not the file of [B]. *)
Theorem lookup_icon_absent_returns_empty_string :
  fst (Theme_init fs_A_B home_michael 2 (Some dir_A) initial_world) = Ok theme_A
  /\ existing_files fs_A_B "X"
       [mkSubdir (Path_of "48x48") dir_A (Some Fixed) (Some 48%Z) None None (Some 1%Z)]
     = []
  /\ lookup_icon fs_A_B "X" 64 1 theme_A = Ok (Some "")
  /\ lookup_icon fs_A_B "X" 64 1 theme_B = Ok (Some "/usr/share/icons/B/64x64/X.png")
  /\ find_icon_helper fs_A_B "X" 64 1 theme_A = Ok (Some "")
  /\ fst (find_icon fs_A_B home_michael 2 "A" "X" 64 1 initial_world) = Ok (Some "").
Proof. repeat split; vm_compute; reflexivity. Qed.

(** C2: two calls of [find_icon] with the same arguments, one after the
    other. The results agree, but [THEME_CACHE] is still empty after the
    first call and the second call opens the index file of [B] again: twice
    per construction (the theme, then its one subdirectory), four times in
    all. *)
Theorem find_icon_twice_opens_index_again :
  let first := find_icon fs_A_B home_michael 2 "B" "X" 64 1 initial_world in
  let second := find_icon fs_A_B home_michael 2 "B" "X" 64 1 (snd first) in
  fst first = Ok (Some "/usr/share/icons/B/64x64/X.png")
  /\ fst second = fst first
  /\ THEME_CACHE (snd first) = []
  /\ opened (snd first)
     = ["/usr/share/icons/B/index.theme"; "/usr/share/icons/B/index.theme"]
  /\ opened (snd second)
     = ["/usr/share/icons/B/index.theme"; "/usr/share/icons/B/index.theme";
        "/usr/share/icons/B/index.theme"; "/usr/share/icons/B/index.theme"].
Proof. repeat split; vm_compute; reflexivity. Qed.

(** C5: theme [A] holds no file for icon [X], the fallback theme [hicolor]
    holds it at an exact match. [find_icon] returns the empty string found in
    [A]; the index file of [hicolor] is never opened. *)
Theorem find_icon_never_reaches_hicolor :
  fst (find_icon fs_A_hicolor home_michael 2 "A" "X" 64 1 initial_world) = Ok (Some "")
  /\ opened (snd (find_icon fs_A_hicolor home_michael 2 "A" "X" 64 1 initial_world))
     = ["/usr/share/icons/A/index.theme"; "/usr/share/icons/A/index.theme"]
  /\ fst (find_icon fs_A_hicolor home_michael 2 "hicolor" "X" 64 1 initial_world)
     = Ok (Some "/usr/share/icons/hicolor/64x64/X.png").
Proof. repeat split; vm_compute; reflexivity. Qed.

(** C6: for an icon [Y] that no theme holds, [find_icon] returns the empty
    string: neither [None], nor the name of an existing file, nor an absolute
    path. *)
Theorem find_icon_returns_empty_string :
  fst (find_icon fs_A_B home_michael 2 "B" "Y" 64 1 initial_world) = Ok (Some "")
  /\ fs_exists fs_A_B "" = false
  /\ root (Path_of "") = "".
Proof. repeat split; vm_compute; reflexivity. Qed.

(** ** Themes that are not installed *)

Section Missing.

Variables (fs : FileSystem) (home : Path).

(** The constructor never returns for [None]. *)
Lemma Theme_init_None (depth : nat) (w : World) :
  exists e, Theme_init fs home depth None w = (Raise e, w).
Proof. destruct depth; eexists; reflexivity. Qed.

Lemma find_icon_missing (depth : nat) (theme_name icon : string) (sz sc : Z)
    (w : World) :
  get_theme_directory fs home theme_name = None -> THEME_CACHE w = [] ->
  find_icon fs home (S depth) theme_name icon sz sc w = (Raise TypeError, w).
Proof.
  intros Hdir Hw. unfold find_icon. apply bind_Raise.
  rewrite check_cache_miss by exact Hw. rewrite Hdir. reflexivity.
Qed.

(** A theme one of whose scanned [Inherits] lines names a theme that is
    not installed is never constructed. *)
Lemma Theme_init_missing_parent (depth : nat) (d : Path) (lines : list string)
    (v theme_name : string) (w : World) :
  fs_lines fs (Path_str (d // "index.theme")) = Some lines ->
  declares "Inherits" v lines -> In theme_name (Py.split v ",") ->
  get_theme_directory fs home theme_name = None -> THEME_CACHE w = [] ->
  exists e w', Theme_init fs home depth (Some d) w = (Raise e, w').
Proof.
  intros Hlines Hdecl Hin Hdir Hw. apply not_Ok_Raise. intros t w' Hok.
  destruct depth as [|depth]; [discriminate|]. cbn [Theme_init] in Hok.
  apply bind_Ok_inv in Hok. destruct Hok as (lines' & w1 & Hopen & Hok).
  unfold open_ in Hopen. cbn [index_file] in Hopen. rewrite Hlines in Hopen.
  injection Hopen as <- <-.
  revert Hok. apply (Theme_scan_never_Ok fs _ theme_name) with (v := v); auto.
  - intros n. apply keeps_cache_check_cache. intros d0.
    apply keeps_cache_Theme_init.
  - intros w0 Hw0 t0 w0'. rewrite check_cache_miss by exact Hw0. rewrite Hdir.
    destruct (Theme_init_None depth w0) as (e & ->). discriminate.
Qed.

End Missing.

(** C4 (amended): for a theme name without a directory under any search
    root, [get_theme_directory] returns [None] and raises nothing; the
    construction of the theme then raises. A [find_icon] call for that name
    ends in [TypeError], and a theme whose scanned [Inherits] line names it
    is never constructed: its construction ends in an exception. *)
Theorem find_icon_missing_theme_raises
    (fs : FileSystem) (home : Path) (theme_name : string) :
  get_theme_directory fs home theme_name = None ->
  (forall depth icon size scale w,
      THEME_CACHE w = [] ->
      find_icon fs home (S depth) theme_name icon size scale w = (Raise TypeError, w))
  /\ (forall depth d lines v w,
        fs_lines fs (Path_str (d // "index.theme")) = Some lines ->
        declares "Inherits" v lines -> In theme_name (Py.split v ",") ->
        THEME_CACHE w = [] ->
        exists e w', Theme_init fs home depth (Some d) w = (Raise e, w')).
Proof.
  intros Hdir. split.
  - intros depth icon sz sc w Hw. apply find_icon_missing; assumption.
  - intros depth d lines v w Hlines Hdecl Hin Hw.
    apply (Theme_init_missing_parent fs home depth d lines v theme_name); assumption.
Qed.

Lemma declares_Inherits_index_P : declares "Inherits" "ghost,B" (readlines index_P).
Proof.
  exists "Inherits=ghost,B". split; [|vm_compute; reflexivity].
  vm_compute. right; right; left. reflexivity.
Qed.

Lemma find_icon_missing_theme_raises_witness :
  find_icon fs_P_ghost home_michael 5 "ghost" "X" 64 1 initial_world
  = (Raise TypeError, initial_world)
  /\ exists e w',
       Theme_init fs_P_ghost home_michael 5 (Some dir_P) initial_world = (Raise e, w').
Proof.
  assert (Hdir : get_theme_directory fs_P_ghost home_michael "ghost" = None)
    by (vm_compute; reflexivity).
  destruct (find_icon_missing_theme_raises fs_P_ghost home_michael "ghost" Hdir)
    as (Htop & Hparent).
  split.
  - exact (Htop 4%nat "X" 64%Z 1%Z initial_world eq_refl).
  - apply (Hparent 5%nat dir_P (readlines index_P) "ghost,B" initial_world).
    + vm_compute; reflexivity.
    + exact declares_Inherits_index_P.
    + left; reflexivity.
    + reflexivity.
Defined.

(** C4, as stated, fails: the theme [ghost] is not installed. A [find_icon]
    call for [ghost] raises although [hicolor] holds the icon, and a call for
    [P], which names [ghost] before [B] in its [Inherits] line, raises
    although [P] itself, [B] and [hicolor] hold the icon. *)
Lemma find_icon_missing_theme_counterexample :
  get_theme_directory fs_P_ghost home_michael "ghost" = None
  /\ fst (find_icon fs_P_ghost home_michael 5 "hicolor" "X" 64 1 initial_world)
     = Ok (Some "/usr/share/icons/hicolor/64x64/X.png")
  /\ fst (find_icon fs_P_ghost home_michael 5 "B" "X" 64 1 initial_world)
     = Ok (Some "/usr/share/icons/B/64x64/X.png")
  /\ fs_exists fs_P_ghost "/usr/share/icons/P/64x64/X.png" = true
  /\ fst (find_icon fs_P_ghost home_michael 5 "ghost" "X" 64 1 initial_world)
     = Raise TypeError
  /\ fst (find_icon fs_P_ghost home_michael 5 "P" "X" 64 1 initial_world)
     = Raise TypeError.
Proof. repeat split; vm_compute; reflexivity. Qed.

(** ** The index file [index_C] *)






(** ** The resolver: what a lookup can return *)

Section Lookup_results.

Variables (fs : FileSystem) (iconname : string) (icon_size icon_scale : Z).

Lemma closest_visits_In (cands : list (ThemeSubdirectory * string)) :
  forall st st',
    closest_visits icon_size icon_scale cands st = Ok st' ->
    snd st' = snd st \/ exists c, In c cands /\ snd st' = Some (snd c).
Proof.
  induction cands as [|c cands IH]; intros st st' H.
  - injection H as <-. left. reflexivity.
  - cbn [closest_visits] in H. unfold closest_visit in H.
    destruct (directory_size_distance (fst c) icon_size icon_scale) as [d|e];
      [|discriminate].
    cbn [rbind] in H. destruct (d <? fst st)%Z; cbn [rbind] in H.
    + destruct (IH _ _ H) as [Heq|(c' & Hin & Heq)].
      * right. exists c. split; [left; reflexivity | exact Heq].
      * right. exists c'. split; [right; exact Hin | exact Heq].
    + destruct (IH _ _ H) as [Heq|(c' & Hin & Heq)].
      * left. exact Heq.
      * right. exists c'. split; [right; exact Hin | exact Heq].
Qed.

Lemma existing_files_In (dirs : list ThemeSubdirectory) (c : ThemeSubdirectory * string) :
  In c (existing_files fs iconname dirs) ->
  In (fst c) dirs
  /\ exists extension,
       In extension extensions
       /\ snd c = icon_filename (fst c) iconname extension
       /\ fs_exists fs (snd c) = true.
Proof.
  unfold existing_files. intros H. apply in_flat_map in H.
  destruct H as (subdir & Hsub & H). apply in_map_iff in H.
  destruct H as (extension & <- & H). apply filter_In in H.
  destruct H as (Hext & Hex). cbn [fst snd]. split; [exact Hsub|].
  exists extension. repeat split; assumption.
Qed.

Lemma exact_in_subdir_first (subdir : ThemeSubdirectory) (m : option bool)
    (exts : list string) :
  directory_matches_size subdir icon_size icon_scale = Ok m ->
  exact_in_subdir fs iconname icon_size icon_scale subdir exts
  = Ok (if truthy m
        then hd_error
               (map (icon_filename subdir iconname)
                  (filter (fun extension =>
                             fs_exists fs (icon_filename subdir iconname extension))
                     exts))
        else None).
Proof.
  intros Hm. induction exts as [|x exts IH]; cbn [exact_in_subdir filter map].
  - destruct (truthy m); reflexivity.
  - rewrite Hm. cbn [rbind]. destruct (truthy m); cbn [andb].
    + destruct (fs_exists fs (icon_filename subdir iconname x)); [reflexivity|].
      exact IH.
    + exact IH.
Qed.

(** On subdirectories that the matcher can compare, the first pass returns
    the first existing candidate file of a matching subdirectory. *)
Lemma exact_pass_first (dirs : list ThemeSubdirectory) :
  comparable icon_size icon_scale dirs ->
  exact_pass fs iconname icon_size icon_scale dirs
  = Ok (option_map snd
          (hd_error (exact_candidates fs iconname icon_size icon_scale dirs))).
Proof.
  unfold exact_candidates, existing_files.
  induction dirs as [|subdir dirs IH]; intros Hc; [reflexivity|].
  destruct (Hc subdir (or_introl eq_refl)) as (m & Hm).
  cbn [exact_pass flat_map]. rewrite (exact_in_subdir_first subdir m _ Hm).
  cbn [rbind]. rewrite filter_app.
  assert (Hrest : comparable icon_size icon_scale dirs)
    by (intros s Hs; apply Hc; right; exact Hs).
  specialize (IH Hrest).
  set (F := filter (fun extension =>
                      fs_exists fs (icon_filename subdir iconname extension))
              extensions).
  assert (HF : filter (fun c => matches icon_size icon_scale (fst c))
                 (map (fun extension => (subdir, icon_filename subdir iconname extension)) F)
               = if truthy m
                 then map (fun extension =>
                             (subdir, icon_filename subdir iconname extension)) F
                 else []).
  { unfold matches. induction F as [|x F IHF]; cbn [map filter fst].
    - destruct (truthy m); reflexivity.
    - rewrite Hm, IHF. destruct (truthy m); reflexivity. }
  rewrite HF. destruct (truthy m).
  - destruct F as [|x F]; [exact IH | reflexivity].
  - exact IH.
Qed.

(** The second pass never loses its file name: it ends with the initial
    one or with an existing candidate. *)
Lemma lookup_icon_Some_or_Raise (theme : Theme) :
  (exists f, lookup_icon fs iconname icon_size icon_scale theme = Ok (Some f))
  \/ (exists e, lookup_icon fs iconname icon_size icon_scale theme = Raise e).
Proof.
  unfold lookup_icon. destruct (directories theme) as [dirs|]; [|right; eexists; reflexivity].
  destruct (exact_pass fs iconname icon_size icon_scale dirs) as [[f|]|e];
    cbn [rbind]; [left; eexists; reflexivity | | right; eexists; reflexivity].
  rewrite closest_pass_visits.
  destruct (closest_visits icon_size icon_scale (existing_files fs iconname dirs)
              (Py.sys_maxsize, Some "")) as [st'|e] eqn:H;
    cbn [rbind]; [|right; eexists; reflexivity].
  destruct (closest_visits_In _ _ _ H) as [Heq|(c & _ & Heq)]; rewrite Heq;
    left; eexists; reflexivity.
Qed.

Lemma find_icon_helper_lookup (theme : Theme) :
  find_icon_helper fs iconname icon_size icon_scale theme
  = lookup_icon fs iconname icon_size icon_scale theme.
Proof.
  destruct (lookup_icon_Some_or_Raise theme) as [(f & H)|(e & H)];
    destruct theme as [p i ps ds]; cbn [find_icon_helper]; rewrite H; reflexivity.
Qed.

End Lookup_results.

(** [lookup_icon] never returns [None]: the closest file name starts as the
    empty string and is only ever replaced by a file name. *)
Theorem lookup_icon_never_None
    (fs : FileSystem) (iconname : string) (icon_size icon_scale : Z) (theme : Theme) :
  lookup_icon fs iconname icon_size icon_scale theme <> Ok None.
Proof.
  destruct (lookup_icon_Some_or_Raise fs iconname icon_size icon_scale theme)
    as [(f & H)|(e & H)]; rewrite H; discriminate.
Qed.

(** [find_icon_helper] is [lookup_icon]: whatever the theme and its parents,
    the parents are never searched. *)
Theorem find_icon_helper_never_searches_parents
    (fs : FileSystem) (iconname : string) (icon_size icon_scale : Z) (theme : Theme) :
  find_icon_helper fs iconname icon_size icon_scale theme
  = lookup_icon fs iconname icon_size icon_scale theme.
Proof. apply find_icon_helper_lookup. Qed.

Lemma find_icon_lookup
    (fs : FileSystem) (home : Path) (depth : nat) (theme_name icon : string)
    (size scale : Z) (w : World) :
  find_icon fs home depth theme_name icon size scale w
  = (theme <- from_theme_name fs home depth theme_name ;;
     lift (lookup_icon fs icon size scale theme)) w.
Proof.
  unfold find_icon, from_theme_name, bind.
  destruct (check_cache_before_creation _ _ w) as [[theme|e] w1]; [|reflexivity].
  unfold lift. rewrite find_icon_helper_lookup.
  destruct (lookup_icon_Some_or_Raise fs icon size scale theme) as [(f & H)|(e & H)];
    rewrite H; reflexivity.
Qed.

(** [find_icon] is the lookup in the requested theme alone: the theme
    [hicolor] is never constructed or searched. *)
Theorem find_icon_named_theme_only
    (fs : FileSystem) (home : Path) (depth : nat) (theme_name icon : string)
    (size scale : Z) (w : World) :
  find_icon fs home depth theme_name icon size scale w
  = (theme <- from_theme_name fs home depth theme_name ;;
     lift (lookup_icon fs icon size scale theme)) w.
Proof. apply find_icon_lookup. Qed.

(** A [find_icon] call that returns, returns a string, never [None]. *)
Theorem find_icon_never_None
    (fs : FileSystem) (home : Path) (depth : nat) (theme_name icon : string)
    (size scale : Z) (w w' : World) :
  find_icon fs home depth theme_name icon size scale w <> (Ok None, w').
Proof.
  unfold find_icon, bind.
  destruct (check_cache_before_creation _ _ w) as [[theme|e] w1]; [|discriminate].
  unfold lift. rewrite find_icon_helper_lookup.
  destruct (lookup_icon_Some_or_Raise fs icon size scale theme) as [(f & H)|(e & H)];
    rewrite H; discriminate.
Qed.

(** No call of [find_icon] changes [THEME_CACHE]; from the state of a freshly
    loaded module the cache is empty after any call. *)
Theorem find_icon_leaves_THEME_CACHE
    (fs : FileSystem) (home : Path) (depth : nat) (theme_name icon : string)
    (size scale : Z) (w : World) :
  THEME_CACHE (snd (find_icon fs home depth theme_name icon size scale w))
  = THEME_CACHE w.
Proof. apply keeps_cache_find_icon. Qed.

(** ** The resolver: which file a lookup returns *)

Lemma exact_in_subdir_candidate
    (fs : FileSystem) (iconname : string) (icon_size icon_scale : Z)
    (subdir : ThemeSubdirectory) (f : string) (exts : list string) :
  exact_in_subdir fs iconname icon_size icon_scale subdir exts = Ok (Some f) ->
  fs_exists fs f = true
  /\ exists extension, In extension exts /\ f = icon_filename subdir iconname extension.
Proof.
  induction exts as [|x exts IHx]; [discriminate|]. cbn [exact_in_subdir].
  destruct (directory_matches_size subdir icon_size icon_scale) as [m|e];
    [|discriminate].
  cbn [rbind].
  destruct (truthy m && fs_exists fs (icon_filename subdir iconname x)) eqn:Hb.
  - intros K. injection K as <-. apply andb_prop in Hb. destruct Hb as (_ & Hb).
    split; [exact Hb|]. exists x. split; [left; reflexivity | reflexivity].
  - intros K. destruct (IHx K) as (Hf & extension & Hext & Hname).
    split; [exact Hf|]. exists extension. split; [right; exact Hext | exact Hname].
Qed.

Lemma exact_pass_candidate
    (fs : FileSystem) (iconname : string) (icon_size icon_scale : Z)
    (dirs : list ThemeSubdirectory) (f : string) :
  exact_pass fs iconname icon_size icon_scale dirs = Ok (Some f) ->
  fs_exists fs f = true
  /\ exists subdir extension,
       In subdir dirs /\ In extension ["png"; "svg"; "xpm"]
       /\ f = icon_filename subdir iconname extension.
Proof.
  induction dirs as [|subdir dirs IH]; [discriminate|]. cbn [exact_pass].
  destruct (exact_in_subdir fs iconname icon_size icon_scale subdir extensions)
    as [[g|]|e] eqn:Hin; cbn [rbind]; [|intros Hex|discriminate].
  - intros Hex. injection Hex as ->.
    destruct (exact_in_subdir_candidate _ _ _ _ _ _ _ Hin) as (Hf & extension & Hext & Hname).
    split; [exact Hf|]. exists subdir, extension.
    repeat split; [left; reflexivity | exact Hext | exact Hname].
  - destruct (IH Hex) as (Hf & sd & extension & Hsd & Hext & Hname).
    split; [exact Hf|]. exists sd, extension.
    repeat split; [right; exact Hsd | exact Hext | exact Hname].
Qed.

(** A name returned by [lookup_icon] is the empty string or the name of an
    existing file [<subdirectory>/<icon>.<extension>] of one of the theme's
    own subdirectories, with one of the three known extensions. *)
Theorem lookup_icon_returns_candidate
    (fs : FileSystem) (iconname : string) (icon_size icon_scale : Z)
    (theme : Theme) (dirs : list ThemeSubdirectory) (filename : string) :
  directories theme = Some dirs ->
  lookup_icon fs iconname icon_size icon_scale theme = Ok (Some filename) ->
  filename = ""
  \/ (fs_exists fs filename = true
      /\ exists subdir extension,
           In subdir dirs /\ In extension ["png"; "svg"; "xpm"]
           /\ filename = icon_filename subdir iconname extension).
Proof.
  intros Hd H. unfold lookup_icon in H. rewrite Hd in H.
  assert (Hcand : forall c, In c (existing_files fs iconname dirs) ->
                   fs_exists fs (snd c) = true
                   /\ exists subdir extension,
                        In subdir dirs /\ In extension ["png"; "svg"; "xpm"]
                        /\ snd c = icon_filename subdir iconname extension).
  { intros c Hc. apply existing_files_In in Hc.
    destruct Hc as (Hsub & extension & Hext & Hname & Hex).
    split; [exact Hex|]. exists (fst c), extension. repeat split; assumption. }
  destruct (exact_pass fs iconname icon_size icon_scale dirs) as [[f|]|e] eqn:Hex;
    cbn [rbind] in H; [| |discriminate].
  - injection H as <-. right. exact (exact_pass_candidate _ _ _ _ _ _ Hex).
  - rewrite closest_pass_visits in H.
    destruct (closest_visits icon_size icon_scale (existing_files fs iconname dirs)
                (Py.sys_maxsize, Some "")) as [st'|e] eqn:Hv;
      cbn [rbind] in H; [|discriminate].
    destruct (closest_visits_In _ _ _ _ _ Hv) as [Heq|(c & Hc & Heq)];
      rewrite Heq in H; injection H as <-.
    + left. reflexivity.
    + right. exact (Hcand c Hc).
Qed.

Lemma lookup_icon_returns_candidate_witness :
  "/usr/share/icons/T/48x48/X.png" = ""
  \/ (fs_exists fs_T_48_96 "/usr/share/icons/T/48x48/X.png" = true
      /\ exists subdir extension,
           In subdir [fixed_subdir "48x48" 48 1; fixed_subdir "96x96" 96 1]
           /\ In extension ["png"; "svg"; "xpm"]
           /\ "/usr/share/icons/T/48x48/X.png" = icon_filename subdir "X" extension).
Proof.
  apply (lookup_icon_returns_candidate fs_T_48_96 "X" 64 1
           (theme_T [fixed_subdir "48x48" 48 1; fixed_subdir "96x96" 96 1])).
  - reflexivity.
  - vm_compute. reflexivity.
Defined.

(** An exact match wins, in visiting order: when the matcher can compare
    every subdirectory, [lookup_icon] returns the first existing candidate
    file of a subdirectory that matches the request exactly, whatever the
    distances of the other candidates. *)
Theorem lookup_icon_first_exact_candidate
    (fs : FileSystem) (iconname : string) (icon_size icon_scale : Z)
    (theme : Theme) (dirs : list ThemeSubdirectory)
    (subdir : ThemeSubdirectory) (filename : string)
    (rest : list (ThemeSubdirectory * string)) :
  directories theme = Some dirs ->
  comparable icon_size icon_scale dirs ->
  exact_candidates fs iconname icon_size icon_scale dirs = (subdir, filename) :: rest ->
  lookup_icon fs iconname icon_size icon_scale theme = Ok (Some filename).
Proof.
  intros Hd Hc Hcands. unfold lookup_icon. rewrite Hd.
  rewrite exact_pass_first by exact Hc. rewrite Hcands. reflexivity.
Qed.

Lemma comparable_fixed_48_96 :
  comparable 96 1 [fixed_subdir "48x48" 48 1; fixed_subdir "96x96" 96 1].
Proof.
  intros subdir [<-|[<-|[]]]; eexists; reflexivity.
Qed.

Lemma lookup_icon_first_exact_candidate_witness :
  lookup_icon fs_T_48_96 "X" 96 1
    (theme_T [fixed_subdir "48x48" 48 1; fixed_subdir "96x96" 96 1])
  = Ok (Some "/usr/share/icons/T/96x96/X.png").
Proof.
  apply (lookup_icon_first_exact_candidate fs_T_48_96 "X" 96 1 _
           [fixed_subdir "48x48" 48 1; fixed_subdir "96x96" 96 1]
           (fixed_subdir "96x96" 96 1) _ []).
  - reflexivity.
  - exact comparable_fixed_48_96.
  - vm_compute. reflexivity.
Defined.

(** Within a matching subdirectory the extensions are tried in the order
    png, svg, xpm: when the first subdirectory of the theme matches the
    request and holds the icon, the lookup returns its png file if there is
    one, else its svg file if there is one, else its xpm file. *)
Theorem lookup_icon_extension_priority
    (fs : FileSystem) (iconname : string) (icon_size icon_scale : Z)
    (theme : Theme) (subdir : ThemeSubdirectory) (dirs : list ThemeSubdirectory) :
  directories theme = Some (subdir :: dirs) ->
  directory_matches_size subdir icon_size icon_scale = Ok (Some true) ->
  fs_exists fs (icon_filename subdir iconname "png")
  || fs_exists fs (icon_filename subdir iconname "svg")
  || fs_exists fs (icon_filename subdir iconname "xpm") = true ->
  lookup_icon fs iconname icon_size icon_scale theme
  = Ok (Some (if fs_exists fs (icon_filename subdir iconname "png")
              then icon_filename subdir iconname "png"
              else if fs_exists fs (icon_filename subdir iconname "svg")
                   then icon_filename subdir iconname "svg"
                   else icon_filename subdir iconname "xpm")).
Proof.
  intros Hd Hm Hex. unfold lookup_icon. rewrite Hd. cbn [exact_pass].
  rewrite (exact_in_subdir_first fs iconname icon_size icon_scale subdir _ _ Hm).
  cbn [truthy]. unfold extensions. cbn [filter].
  destruct (fs_exists fs (icon_filename subdir iconname "png")); [reflexivity|].
  destruct (fs_exists fs (icon_filename subdir iconname "svg")); [reflexivity|].
  destruct (fs_exists fs (icon_filename subdir iconname "xpm")); [reflexivity|].
  discriminate.
Qed.

Lemma lookup_icon_extension_priority_witness :
  lookup_icon fs_T_48_96 "X" 48 1
    (theme_T [fixed_subdir "48x48" 48 1; fixed_subdir "96x96" 96 1])
  = Ok (Some (if fs_exists fs_T_48_96
                   (icon_filename (fixed_subdir "48x48" 48 1) "X" "png")
              then icon_filename (fixed_subdir "48x48" 48 1) "X" "png"
              else if fs_exists fs_T_48_96
                        (icon_filename (fixed_subdir "48x48" 48 1) "X" "svg")
                   then icon_filename (fixed_subdir "48x48" 48 1) "X" "svg"
                   else icon_filename (fixed_subdir "48x48" 48 1) "X" "xpm")).
Proof.
  apply (lookup_icon_extension_priority fs_T_48_96 "X" 48 1 _
           (fixed_subdir "48x48" 48 1) [fixed_subdir "96x96" 96 1]).
  - reflexivity.
  - reflexivity.
  - vm_compute. reflexivity.
Defined.

(** When no candidate file exists in the theme's own subdirectories (and the
    matcher can compare them), [lookup_icon] returns the empty string. *)
Theorem lookup_icon_without_candidates
    (fs : FileSystem) (iconname : string) (icon_size icon_scale : Z)
    (theme : Theme) (dirs : list ThemeSubdirectory) :
  directories theme = Some dirs ->
  comparable icon_size icon_scale dirs ->
  (forall subdir extension,
      In subdir dirs -> In extension ["png"; "svg"; "xpm"] ->
      fs_exists fs (icon_filename subdir iconname extension) = false) ->
  lookup_icon fs iconname icon_size icon_scale theme = Ok (Some "").
Proof.
  intros Hd Hc Hnone.
  assert (Hfiles : existing_files fs iconname dirs = []).
  { destruct (existing_files fs iconname dirs) as [|c l] eqn:E; [reflexivity|].
    assert (Hin : In c (existing_files fs iconname dirs)) by (rewrite E; left; reflexivity).
    apply existing_files_In in Hin.
    destruct Hin as (Hsub & extension & Hext & Hname & Hex).
    rewrite Hname, (Hnone _ _ Hsub Hext) in Hex. discriminate. }
  unfold lookup_icon. rewrite Hd, exact_pass_first by exact Hc.
  unfold exact_candidates. rewrite Hfiles. cbn [filter hd_error option_map rbind].
  rewrite closest_pass_visits, Hfiles. reflexivity.
Qed.

Lemma lookup_icon_without_candidates_witness :
  lookup_icon fs_T_48_96 "Y" 96 1
    (theme_T [fixed_subdir "48x48" 48 1; fixed_subdir "96x96" 96 1])
  = Ok (Some "").
Proof.
  apply (lookup_icon_without_candidates fs_T_48_96 "Y" 96 1 _
           [fixed_subdir "48x48" 48 1; fixed_subdir "96x96" 96 1]).
  - reflexivity.
  - exact comparable_fixed_48_96.
  - intros subdir extension [<-|[<-|[]]] [<-|[<-|[<-|[]]]]; vm_compute; reflexivity.
Defined.

(** ** The size matcher and the distance *)

(** A distance is never negative, also for a Scalable subdirectory whose
    [MinSize] exceeds its [MaxSize]. *)
Theorem directory_size_distance_nonnegative
    (subdir : ThemeSubdirectory) (icon_size icon_scale d : Z) :
  directory_size_distance subdir icon_size icon_scale = Ok d -> (0 <= d)%Z.
Proof.
  unfold directory_size_distance.
  destruct (type subdir) as [[|]|].
  - destruct (py_mul (size subdir) (scale subdir)) as [s|e]; [|discriminate].
    cbn [rbind]. intros H. injection H as <-. apply Z.abs_nonneg.
  - destruct (py_mul (min_size subdir) (scale subdir)) as [lo|e]; [|discriminate].
    cbn [rbind]. destruct (Z.ltb_spec (icon_size * icon_scale) lo) as [Hlt|Hge].
    + cbn [rbind]. intros H. injection H as <-. lia.
    + destruct (py_mul (max_size subdir) (scale subdir)) as [hi|e]; [|discriminate].
      cbn [rbind]. destruct (Z.gtb_spec (icon_size * icon_scale) hi) as [Hgt|Hle].
      * cbn [rbind]. intros H. injection H as <-. lia.
      * intros H. injection H as <-. lia.
  - intros H. injection H as <-. unfold Py.sys_maxsize. lia.
Qed.

Lemma directory_size_distance_nonnegative_witness : (0 <= 16)%Z.
Proof.
  apply (directory_size_distance_nonnegative (fixed_subdir "48x48" 48 1) 64 1 16).
  reflexivity.
Defined.

(** A subdirectory that matches the request exactly is at distance 0, for a
    requested scale that is not negative. *)
Theorem matching_directory_at_distance_0
    (subdir : ThemeSubdirectory) (icon_size icon_scale : Z) :
  (0 <= icon_scale)%Z ->
  directory_matches_size subdir icon_size icon_scale = Ok (Some true) ->
  directory_size_distance subdir icon_size icon_scale = Ok 0%Z.
Proof.
  intros Hsc. unfold directory_matches_size, directory_size_distance, py_eq.
  destruct (scale subdir) as [s|]; [|discriminate].
  destruct (Z.eqb_spec s icon_scale) as [->|]; [|discriminate]. cbn [negb].
  destruct (type subdir) as [[|]|]; [| |discriminate].
  - destruct (size subdir) as [n|]; [|discriminate].
    destruct (Z.eqb_spec n icon_size) as [->|]; [|discriminate].
    intros _. cbn [py_mul rbind]. rewrite Z.sub_diag. reflexivity.
  - destruct (min_size subdir) as [lo|]; [|discriminate].
    destruct (Z.leb_spec lo icon_size) as [Hlo|]; [|discriminate].
    destruct (max_size subdir) as [hi|]; [|discriminate].
    destruct (Z.leb_spec icon_size hi) as [Hhi|]; [|discriminate].
    intros _. cbn [py_mul rbind].
    destruct (Z.ltb_spec (icon_size * icon_scale) (lo * icon_scale)) as [Hlt|_]; [nia|].
    cbn [rbind].
    destruct (Z.gtb_spec (icon_size * icon_scale) (hi * icon_scale)) as [Hgt|_]; [nia|].
    reflexivity.
Qed.

Lemma matching_directory_at_distance_0_witness :
  directory_size_distance (scalable_subdir "scalable" 32 16 48 1) 32 1 = Ok 0%Z.
Proof.
  apply (matching_directory_at_distance_0 (scalable_subdir "scalable" 32 16 48 1) 32 1).
  - lia.
  - reflexivity.
Defined.

(** Icons in subdirectories whose [Type] is neither [Fixed] nor [Scalable]
    (a [Threshold] section, or no [Type] line) are never found: such a
    subdirectory matches no request and its distance is never below the
    initial minimum, so the lookup returns the empty string whatever files
    exist. *)
Theorem lookup_icon_untyped_never_found
    (fs : FileSystem) (iconname : string) (icon_size icon_scale : Z)
    (theme : Theme) (dirs : list ThemeSubdirectory) :
  directories theme = Some dirs ->
  (forall subdir, In subdir dirs -> type subdir = None) ->
  lookup_icon fs iconname icon_size icon_scale theme = Ok (Some "").
Proof.
  intros Hd Hty.
  assert (Hm : forall subdir, In subdir dirs ->
                 exists m, directory_matches_size subdir icon_size icon_scale = Ok m
                           /\ truthy m = false).
  { intros subdir Hin. unfold directory_matches_size. rewrite (Hty subdir Hin).
    destruct (negb (py_eq (scale subdir) icon_scale)); eexists; split; reflexivity. }
  assert (Hc : comparable icon_size icon_scale dirs).
  { intros subdir Hin. destruct (Hm subdir Hin) as (m & H & _). exists m. exact H. }
  assert (Hex : exact_candidates fs iconname icon_size icon_scale dirs = []).
  { unfold exact_candidates.
    assert (K : forall c, In c (existing_files fs iconname dirs) ->
                 matches icon_size icon_scale (fst c) = false).
    { intros c Hin. apply existing_files_In in Hin. destruct Hin as (Hin & _).
      unfold matches. destruct (Hm _ Hin) as (m & -> & Ht). exact Ht. }
    induction (existing_files fs iconname dirs) as [|c l IH]; [reflexivity|].
    cbn [filter]. rewrite (K c (or_introl eq_refl)). apply IH.
    intros c' Hc'. apply K. right. exact Hc'. }
  unfold lookup_icon. rewrite Hd, exact_pass_first by exact Hc. rewrite Hex.
  cbn [hd_error option_map rbind]. rewrite closest_pass_visits.
  rewrite (closest_visits_not_closer icon_size icon_scale _ Py.sys_maxsize "");
    [reflexivity|].
  intros c Hin. apply existing_files_In in Hin. destruct Hin as (Hin & _).
  exists Py.sys_maxsize. split; [|lia].
  unfold directory_size_distance. rewrite (Hty _ Hin). reflexivity.
Qed.

Lemma lookup_icon_untyped_never_found_witness :
  lookup_icon fs_T_threshold "X" 48 1 (theme_T [untyped_subdir "48x48" 48 1])
  = Ok (Some "").
Proof.
  apply (lookup_icon_untyped_never_found fs_T_threshold "X" 48 1
           (theme_T [untyped_subdir "48x48" 48 1]) [untyped_subdir "48x48" 48 1]).
  - reflexivity.
  - intros subdir [<-|[]]. reflexivity.
Defined.

(** ** The parser: errors and what is read *)

Lemma subdir_key_Ok (self : ThemeSubdirectory) (k v : string) :
  (if numeric_key k then match Py.int v with Some _ => true | None => false end
   else true) = true ->
  exists self', subdir_key self k v = Ok self'.
Proof.
  unfold subdir_key, numeric_key, assign_int.
  destruct (String.eqb k "Type").
  - intros _. destruct (String.eqb v "Fixed"); [eexists; reflexivity|].
    destruct (String.eqb v "Scalable"); eexists; reflexivity.
  - destruct (String.eqb k "Size"), (String.eqb k "MinSize"),
      (String.eqb k "MaxSize"), (String.eqb k "Scale"); cbn [orb];
      destruct (Py.int v); intros H; try discriminate; eexists; reflexivity.
Qed.

Lemma subdir_key_ValueError (self : ThemeSubdirectory) (k v : string) :
  (if numeric_key k then match Py.int v with Some _ => true | None => false end
   else true) = false ->
  subdir_key self k v = Raise ValueError.
Proof.
  unfold numeric_key. intros H.
  destruct (String.eqb_spec k "Type") as [->|HT]; [discriminate|].
  unfold subdir_key, assign_int.
  destruct (String.eqb_spec k "Type") as [|_]; [contradiction|].
  destruct (String.eqb k "Size"), (String.eqb k "MinSize"),
    (String.eqb k "MaxSize"), (String.eqb k "Scale"); cbn [orb] in H;
    destruct (Py.int v); try discriminate; reflexivity.
Qed.

Lemma assign_pairs_ValueError (kvs : list (string * string)) :
  numeric_ok kvs = false ->
  forall self, assign_pairs kvs self = Raise ValueError.
Proof.
  induction kvs as [|[k v] rest IH]; intros Hok self; [discriminate|].
  unfold numeric_ok in Hok. cbn [forallb fst snd] in Hok. cbn [assign_pairs].
  destruct (if numeric_key k
            then match Py.int v with Some _ => true | None => false end
            else true) eqn:Hk.
  - destruct (subdir_key_Ok self k v Hk) as (self' & ->). cbn [rbind].
    apply IH. exact Hok.
  - rewrite (subdir_key_ValueError self k v Hk). reflexivity.
Qed.

(** A [Size], [MinSize], [MaxSize] or [Scale] line of the subdirectory's own
    section whose value is no integer literal makes
    [ThemeSubdirectory.__init__] raise [ValueError] (after opening the index
    file). *)
Theorem ThemeSubdirectory_init_ValueError
    (fs : FileSystem) (relpath : Path) (theme : Theme) (lines : list string)
    (w : World) :
  fs_lines fs (Path_str (index_file theme)) = Some lines ->
  numeric_ok (section_pairs relpath lines) = false ->
  ThemeSubdirectory_init fs relpath theme w
  = (Raise ValueError, opening (index_file theme) 1 w).
Proof.
  intros Hlines Hok. unfold ThemeSubdirectory_init, bind, open_, lift.
  rewrite Hlines, subdir_scan_section.
  fold (section_pairs relpath lines).
  rewrite assign_pairs_ValueError by exact Hok. reflexivity.
Qed.

(** The lines of a file cannot change the record of a subdirectory unless
    they change the body of its own section. *)
Theorem subdir_scan_own_section_only
    (header : string) (lines lines' : list string) (self : ThemeSubdirectory) :
  section_lines header lines = section_lines header lines' ->
  subdir_scan header lines false self = subdir_scan header lines' false self.
Proof. intros H. rewrite !subdir_scan_section, H. reflexivity. Qed.

(** The loop of [Theme.__init__] reads no assignment after the first section
    header other than ["[Icon Theme]"]: on the same file system, the loop
    over the lines up to such a header and the loop over the whole list end
    in the same way. (The lines after the header are the sections that
    [ThemeSubdirectory.__init__] reads from the file.) *)
Theorem Theme_scan_stops_at_section
    (fs : FileSystem) (mk : string -> M Theme) (pre post : list string)
    (header : string) (self : Theme) (w : World) :
  Py.startswith (Py.strip header) "[" = true ->
  Py.strip header <> "[Icon Theme]" ->
  Theme_scan fs mk (pre ++ header :: post) self w = Theme_scan fs mk pre self w.
Proof.
  intros Hstart Hname. rewrite !Theme_scan_keys. f_equal.
  unfold theme_keys. f_equal. f_equal.
  induction pre as [|raw pre IH]; cbn [app scanned_lines]; cbv zeta.
  - rewrite Hstart. apply String.eqb_neq in Hname. rewrite Hname. reflexivity.
  - destruct (Py.startswith (Py.strip raw) "[" &&
              negb (String.eqb (Py.strip raw) "[Icon Theme]")); [reflexivity|].
    rewrite IH. reflexivity.
Qed.

Lemma ThemeSubdirectory_init_ValueError_witness :
  ThemeSubdirectory_init fs_V (Path_of "48x48")
    (mkTheme dir_V (dir_V // "index.theme") None None) initial_world
  = (Raise ValueError,
     opening (index_file (mkTheme dir_V (dir_V // "index.theme") None None)) 1
       initial_world).
Proof.
  apply (ThemeSubdirectory_init_ValueError fs_V (Path_of "48x48")
           (mkTheme dir_V (dir_V // "index.theme") None None) (readlines index_V)
           initial_world).
  - vm_compute. reflexivity.
  - vm_compute. reflexivity.
Defined.

Lemma subdir_scan_own_section_only_witness :
  subdir_scan "[48x48]" ["[Icon Theme]"; "Size=1"; "[48x48]"; "Size=48"; "[96x96]"; "Size=96"]
    false (mkSubdir (Path_of "48x48") dir_V None None None None None)
  = subdir_scan "[48x48]" ["[48x48]"; "Size=48"]
      false (mkSubdir (Path_of "48x48") dir_V None None None None None).
Proof.
  apply (subdir_scan_own_section_only "[48x48]"
           ["[Icon Theme]"; "Size=1"; "[48x48]"; "Size=48"; "[96x96]"; "Size=96"]
           ["[48x48]"; "Size=48"]).
  vm_compute. reflexivity.
Defined.

Lemma Theme_scan_stops_at_section_witness :
  Theme_scan fs_V (fun _ => raise TypeError)
    (["[Icon Theme]"; "Name=V"] ++ "[48x48]" :: ["Inherits=ghost"])
    (mkTheme dir_V (dir_V // "index.theme") None None) initial_world
  = Theme_scan fs_V (fun _ => raise TypeError) ["[Icon Theme]"; "Name=V"]
      (mkTheme dir_V (dir_V // "index.theme") None None) initial_world.
Proof.
  apply (Theme_scan_stops_at_section fs_V (fun _ => raise TypeError)
           ["[Icon Theme]"; "Name=V"] ["Inherits=ghost"] "[48x48]").
  - vm_compute. reflexivity.
  - vm_compute. discriminate.
Defined.

(** ** Construction: directories, openings, the recursion limit *)

(** [get_theme_directory] returns a directory that exists, the one under the
    user's home if there is one and the system-wide one otherwise, and
    [None] exactly when neither exists. *)
Theorem get_theme_directory_first_existing
    (fs : FileSystem) (home : Path) (theme_name : string) :
  match get_theme_directory fs home theme_name with
  | Some d =>
      fs_is_dir fs (Path_str d) = true
      /\ (d = home // ".local/share/icons" // theme_name
          \/ (fs_is_dir fs (Path_str (home // ".local/share/icons" // theme_name)) = false
              /\ d = Path_of "/usr/share/icons" // theme_name))
  | None =>
      fs_is_dir fs (Path_str (home // ".local/share/icons" // theme_name)) = false
      /\ fs_is_dir fs (Path_str (Path_of "/usr/share/icons" // theme_name)) = false
  end.
Proof.
  unfold get_theme_directory, icon_theme_directories. cbn [first_theme_directory].
  destruct (fs_is_dir fs (Path_str (home // ".local/share/icons" // theme_name))) eqn:Hl.
  - split; [exact Hl | left; reflexivity].
  - destruct (fs_is_dir fs (Path_str (Path_of "/usr/share/icons" // theme_name))) eqn:Hs.
    + split; [exact Hs | right; split; reflexivity].
    + split; reflexivity.
Qed.

(** A theme directory whose [index.theme] cannot be opened: [find_icon] ends
    in [OSError], with no file opened. *)
Theorem find_icon_unreadable_index
    (fs : FileSystem) (home : Path) (depth : nat) (theme_name icon : string)
    (size scale : Z) (d : Path) (w : World) :
  get_theme_directory fs home theme_name = Some d ->
  fs_lines fs (Path_str (d // "index.theme")) = None ->
  THEME_CACHE w = [] ->
  find_icon fs home (S depth) theme_name icon size scale w = (Raise OSError, w).
Proof.
  intros Hdir Hlines Hw. unfold find_icon. apply bind_Raise.
  rewrite check_cache_miss by exact Hw. rewrite Hdir. cbn [Theme_init].
  apply bind_Raise. unfold open_. cbn [index_file]. rewrite Hlines. reflexivity.
Qed.

Lemma find_icon_unreadable_index_witness :
  find_icon (installation ["/usr/share/icons/E"] []) home_michael 1 "E" "X" 64 1
    initial_world
  = (Raise OSError, initial_world).
Proof.
  apply (find_icon_unreadable_index (installation ["/usr/share/icons/E"] [])
           home_michael 0 "E" "X" 64 1 (Path_of "/usr/share/icons/E") initial_world).
  - vm_compute. reflexivity.
  - vm_compute. reflexivity.
  - reflexivity.
Defined.



(** *** Beyond the recursion limit *)

Lemma refines_refl {A} (m : M A) : refines m m.
Proof. intros w _. reflexivity. Qed.

Lemma refines_trans {A} (m1 m2 m3 : M A) :
  refines m1 m2 -> refines m2 m3 -> refines m1 m3.
Proof.
  intros H12 H23 w Hw. rewrite <- (H12 w Hw). apply H23.
  rewrite (H12 w Hw). exact Hw.
Qed.

Lemma refines_bind {A B} (m m' : M A) (k k' : A -> M B) :
  refines m m' -> (forall a, refines (k a) (k' a)) ->
  refines (bind m k) (bind m' k').
Proof.
  intros Hm Hk w Hw. unfold bind in *.
  destruct (m w) as [[a|e] w1] eqn:E.
  - rewrite (Hm w) by (rewrite E; reflexivity). rewrite E. apply Hk. exact Hw.
  - rewrite (Hm w) by (rewrite E; exact Hw). rewrite E. reflexivity.
Qed.

Lemma refines_comprehension {A B} (f g : A -> M B) (xs : list A) :
  (forall x, refines (f x) (g x)) -> refines (comprehension f xs) (comprehension g xs).
Proof.
  intros H. induction xs as [|x xs IH]; cbn [comprehension]; [apply refines_refl|].
  apply refines_bind; [apply H|]. intros y.
  apply refines_bind; [exact IH|]. intros ys. apply refines_refl.
Qed.

Section Recursion_limit.

Variables (fs : FileSystem) (home : Path).

Lemma refines_Theme_scan (mk mk' : string -> M Theme) :
  (forall n, refines (mk n) (mk' n)) ->
  forall lines self, refines (Theme_scan fs mk lines self) (Theme_scan fs mk' lines self).
Proof.
  intros Hmk. induction lines as [|raw rest IH]; intros self; cbn [Theme_scan];
    [apply refines_refl|]. cbv zeta.
  destruct (_ && _); [apply refines_refl|].
  destruct (Py.split (Py.strip raw) "=") as [|k [|v [|x l]]]; try apply IH.
  apply refines_bind.
  - destruct (String.eqb k "Inherits"); [|apply refines_refl].
    apply refines_bind; [|intros ps; apply refines_refl].
    apply refines_comprehension. exact Hmk.
  - intros self1. apply refines_bind; [apply refines_refl|]. intros self2. apply IH.
Qed.

Lemma refines_check_cache (ctor ctor' : option Path -> M Theme) (d : option Path) :
  (forall d', refines (ctor d') (ctor' d')) ->
  refines (check_cache_before_creation ctor d) (check_cache_before_creation ctor' d).
Proof.
  intros H w. unfold check_cache_before_creation.
  destruct (dict_get (THEME_CACHE w) (str_directory d)); [reflexivity | apply H].
Qed.

Lemma refines_Theme_init_S (depth : nat) :
  forall d, refines (Theme_init fs home depth d) (Theme_init fs home (S depth) d).
Proof.
  induction depth as [|depth IH]; intros d.
  - intros w Hw. discriminate.
  - destruct d as [d|]; [|apply refines_refl].
    change (refines
              (bind (open_ fs (d // "index.theme"))
                 (fun lines =>
                    Theme_scan fs
                      (fun n => check_cache_before_creation (Theme_init fs home depth)
                                  (get_theme_directory fs home n))
                      lines (mkTheme d (d // "index.theme") None None)))
              (bind (open_ fs (d // "index.theme"))
                 (fun lines =>
                    Theme_scan fs
                      (fun n => check_cache_before_creation (Theme_init fs home (S depth))
                                  (get_theme_directory fs home n))
                      lines (mkTheme d (d // "index.theme") None None)))).
    apply refines_bind; [apply refines_refl|]. intros lines.
    apply refines_Theme_scan. intros n. apply refines_check_cache. exact IH.
Qed.

Lemma refines_Theme_init_add (depth extra : nat) (d : option Path) :
  refines (Theme_init fs home depth d) (Theme_init fs home (extra + depth) d).
Proof.
  induction extra as [|extra IH]; [apply refines_refl|].
  eapply refines_trans; [exact IH|]. apply refines_Theme_init_S.
Qed.

End Recursion_limit.

(** The recursion limit matters only when it is hit: a [find_icon] call that
    does not end in [RecursionError] ends in the same way, in the same state,
    under every higher limit. *)
Theorem find_icon_above_recursion_limit
    (fs : FileSystem) (home : Path) (depth extra : nat) (theme_name icon : string)
    (size scale : Z) (w : World) :
  fst (find_icon fs home depth theme_name icon size scale w) <> Raise RecursionError ->
  find_icon fs home (extra + depth) theme_name icon size scale w
  = find_icon fs home depth theme_name icon size scale w.
Proof.
  intros H.
  assert (R : refines (find_icon fs home depth theme_name icon size scale)
                (find_icon fs home (extra + depth) theme_name icon size scale)).
  { unfold find_icon. apply refines_bind.
    - apply refines_check_cache. intros d. apply refines_Theme_init_add.
    - intros theme. apply refines_bind; [apply refines_refl|]. intros [f|].
      + apply refines_refl.
      + apply refines_bind.
        * apply refines_check_cache. intros d. apply refines_Theme_init_add.
        * intros hicolor. apply refines_refl. }
  apply R.
  destruct (fst (find_icon fs home depth theme_name icon size scale w)) as [r|[]];
    try reflexivity. contradiction.
Qed.

Lemma find_icon_above_recursion_limit_witness :
  find_icon fs_A_B home_michael (7 + 2) "B" "X" 64 1 initial_world
  = find_icon fs_A_B home_michael 2 "B" "X" 64 1 initial_world.
Proof.
  apply (find_icon_above_recursion_limit fs_A_B home_michael 2 7 "B" "X" 64 1
           initial_world).
  vm_compute. discriminate.
Defined.

(** ** Paths and their strings *)

Lemma split_not_nil (s : string) (sep : ascii) : Py.split s sep <> [].
Proof.
  destruct s as [|c s]; cbn [Py.split]; [discriminate|].
  destruct (Ascii.eqb c sep); [discriminate|].
  destruct (Py.split s sep); discriminate.
Qed.

Lemma split_app_sep (a b : string) (sep : ascii) :
  Py.split (a ++ String sep b) sep = (Py.split a sep ++ Py.split b sep)%list.
Proof.
  induction a as [|c a IH]; cbn [append Py.split].
  - rewrite Ascii.eqb_refl. reflexivity.
  - destruct (Ascii.eqb c sep); rewrite IH; [reflexivity|].
    destruct (Py.split a sep) as [|w ws] eqn:E; [|reflexivity].
    exfalso. exact (split_not_nil a sep E).
Qed.

(** A string in one piece: no separator occurs in it. *)
Lemma split_single (c x : string) (sep : ascii) :
  Py.split c sep = [x] -> x = c.
Proof.
  revert x. induction c as [|a c IH]; intros x; cbn [Py.split].
  - intros H. injection H as <-. reflexivity.
  - destruct (Ascii.eqb a sep).
    + intros H. injection H as _ H. exfalso. exact (split_not_nil c sep H).
    + destruct (Py.split c sep) as [|w ws] eqn:E.
      * exfalso. exact (split_not_nil c sep E).
      * intros H. injection H as <- ->. rewrite (IH w eq_refl). reflexivity.
Qed.

(** The pieces of a split hold no separator. *)
Lemma split_pieces (s : string) (sep : ascii) :
  Forall (fun x => Py.split x sep = [x]) (Py.split s sep).
Proof.
  induction s as [|a s IH]; cbn [Py.split].
  - constructor; [reflexivity | constructor].
  - destruct (Ascii.eqb a sep) eqn:Ea.
    + constructor; [reflexivity | exact IH].
    + destruct (Py.split s sep) as [|w ws] eqn:E.
      * constructor; [|constructor]. cbn [Py.split]. rewrite Ea. reflexivity.
      * inversion IH as [|w' ws' Hw Hws]; subst. constructor; [|exact Hws].
        cbn [Py.split]. rewrite Ea, Hw. reflexivity.
Qed.

Lemma component_ok_single (c : string) :
  component_ok c = true -> Py.split c "/" = [c].
Proof.
  unfold component_ok. intros H. apply andb_prop in H. destruct H as (_ & H).
  destruct (Py.split c "/") as [|x [|y l]] eqn:E; try discriminate.
  rewrite (split_single c x "/" E). reflexivity.
Qed.

Lemma component_ok_path_component (c : string) :
  component_ok c = true -> path_component c = true.
Proof. unfold component_ok. intros H. apply andb_prop in H. apply H. Qed.

Lemma join_cons (c : string) (ps : list string) :
  ps <> [] -> Py.join "/" (c :: ps) = c ++ String "/" (Py.join "/" ps).
Proof. destruct ps as [|p ps]; [contradiction | reflexivity]. Qed.

Lemma append_String (a : string) (c : ascii) (b : string) :
  (a ++ String c EmptyString) ++ b = a ++ String c b.
Proof. induction a as [|x a IH]; cbn [append]; [reflexivity | rewrite IH; reflexivity]. Qed.

Lemma append_assoc (a b c : string) : (a ++ b) ++ c = a ++ (b ++ c).
Proof. induction a as [|x a IH]; cbn [append]; [reflexivity | rewrite IH; reflexivity]. Qed.

(** Joining components and splitting the result gives the components back. *)
Lemma split_join (ps : list string) :
  ps <> [] -> forallb component_ok ps = true ->
  Py.split (Py.join "/" ps) "/" = ps.
Proof.
  induction ps as [|c ps IH]; intros Hne Hok; [contradiction|].
  cbn [forallb] in Hok. apply andb_prop in Hok. destruct Hok as (Hc & Hps).
  destruct ps as [|p ps].
  - cbn [Py.join]. apply component_ok_single. exact Hc.
  - rewrite join_cons by discriminate. rewrite split_app_sep.
    rewrite (component_ok_single c Hc), IH by (discriminate || exact Hps).
    reflexivity.
Qed.

Lemma filter_components (ps : list string) :
  forallb component_ok ps = true -> filter path_component ps = ps.
Proof.
  induction ps as [|c ps IH]; intros Hok; [reflexivity|].
  cbn [forallb] in Hok. apply andb_prop in Hok. destruct Hok as (Hc & Hps).
  cbn [filter]. rewrite (component_ok_path_component c Hc), IH by exact Hps.
  reflexivity.
Qed.

(** A component starts with a character that is no slash. *)
Lemma component_ok_head (c : string) :
  component_ok c = true ->
  exists a r, c = String a r /\ Ascii.eqb a "/" = false.
Proof.
  intros H. pose proof (component_ok_single c H) as Hs.
  apply component_ok_path_component in H. unfold path_component in H.
  destruct c as [|a r]; [discriminate|]. exists a, r. split; [reflexivity|].
  cbn [Py.split] in Hs. destruct (Ascii.eqb a "/"); [|reflexivity].
  injection Hs as Hs _. discriminate.
Qed.

Lemma join_head (c : string) (ps : list string) :
  component_ok c = true ->
  exists a r, Py.join "/" (c :: ps) = String a r /\ Ascii.eqb a "/" = false.
Proof.
  intros H. destruct (component_ok_head c H) as (a & r & -> & Ha).
  destruct ps as [|p ps]; [exists a, r; split; [reflexivity | exact Ha]|].
  exists a, (r ++ "/" ++ Py.join "/" (p :: ps)). split; [reflexivity | exact Ha].
Qed.

(** [Path(str(p)) == p] for every path that [Path(...)] and [/] build. *)
Lemma Path_of_Path_str (p : Path) : Path_ok p -> Path_of (Path_str p) = p.
Proof.
  destruct p as [r ps]. unfold Path_ok. cbn [root parts]. intros (Hr & Hok).
  destruct ps as [|c ps].
  - destruct Hr as [->|[->| ->]]; reflexivity.
  - cbn [forallb] in Hok. pose proof Hok as Hall.
    apply andb_prop in Hok. destruct Hok as (Hc & _).
    destruct (join_head c ps Hc) as (a & s & Hj & Ha).
    assert (Hsplit : Py.split (Py.join "/" (c :: ps)) "/" = c :: ps)
      by (apply split_join; [discriminate | exact Hall]).
    unfold Path_of, Path_str. cbn [root parts].
    destruct Hr as [->|[->| ->]].
    + cbn [append]. rewrite Hsplit, filter_components by exact Hall.
      rewrite Hj. unfold path_root.
      destruct a as [[] [] [] [] [] [] [] []]; try reflexivity. discriminate.
    + change ("/" ++ Py.join "/" (c :: ps)) with (String "/" (Py.join "/" (c :: ps))).
      cbn [Py.split]. rewrite Ascii.eqb_refl. cbn [filter].
      change (path_component "") with false. cbv iota.
      rewrite Hsplit, filter_components by exact Hall.
      rewrite Hj. unfold path_root.
      destruct a as [[] [] [] [] [] [] [] []]; try reflexivity. discriminate.
    + change ("//" ++ Py.join "/" (c :: ps))
        with (String "/" (String "/" (Py.join "/" (c :: ps)))).
      cbn [Py.split]. rewrite Ascii.eqb_refl. cbn [filter].
      change (path_component "") with false. cbv iota.
      rewrite Hsplit, filter_components by exact Hall.
      rewrite Hj. unfold path_root.
      destruct a as [[] [] [] [] [] [] [] []]; try reflexivity. discriminate.
Qed.

Lemma path_root_cases (s : string) :
  path_root s = "" \/ path_root s = "/" \/ path_root s = "//".
Proof.
  destruct s as [|a s]; [left; reflexivity|].
  destruct a as [[] [] [] [] [] [] [] []]; try (left; reflexivity).
  destruct s as [|b s]; [right; left; reflexivity|].
  destruct b as [[] [] [] [] [] [] [] []]; try (right; left; reflexivity).
  destruct s as [|c s]; [right; right; reflexivity|].
  destruct c as [[] [] [] [] [] [] [] []];
    try (right; right; reflexivity); right; left; reflexivity.
Qed.

(** [Path(s)] is well formed. *)
Lemma Path_of_ok (s : string) : Path_ok (Path_of s).
Proof.
  split; [apply path_root_cases|]. unfold Path_of. cbn [parts].
  pose proof (split_pieces s "/") as H.
  induction H as [|x l Hx Hl IH]; [reflexivity|].
  cbn [filter]. destruct (path_component x) eqn:Hc; [|exact IH].
  cbn [forallb]. rewrite IH. unfold component_ok. rewrite Hc, Hx. reflexivity.
Qed.

(** [p / q] of well-formed paths is well formed. *)
Lemma Path_div_ok (p q : Path) : Path_ok p -> Path_ok q -> Path_ok (Path_div p q).
Proof.
  intros (Hrp & Hp) (Hrq & Hq). unfold Path_div.
  destruct (String.eqb (root q) ""); [|split; assumption].
  split; [exact Hrp|]. cbn [parts]. rewrite forallb_app, Hp, Hq. reflexivity.
Qed.

Lemma join_snoc (ps : list string) (name : string) :
  ps <> [] -> Py.join "/" (ps ++ [name]) = Py.join "/" ps ++ String "/" name.
Proof.
  induction ps as [|c ps IH]; intros Hne; [contradiction|].
  destruct ps as [|p ps]; [reflexivity|].
  change ((c :: p :: ps) ++ [name])%list with (c :: p :: (ps ++ [name]))%list.
  rewrite (join_cons c (p :: (ps ++ [name]))%list) by discriminate.
  change (p :: (ps ++ [name]))%list with ((p :: ps) ++ [name])%list.
  rewrite IH by discriminate.
  rewrite (join_cons c (p :: ps)) by discriminate.
  rewrite append_assoc. reflexivity.
Qed.

Lemma Path_str_file_in (p : Path) (name : string) :
  parts p <> [] ->
  Path_str {| root := root p; parts := parts p ++ [name] |}
  = Path_str p ++ String "/" name.
Proof.
  destruct p as [r ps]. cbn [root parts]. intros Hne.
  destruct ps as [|c ps]; [contradiction|].
  assert (J : Py.join "/" ((c :: ps) ++ [name])
              = Py.join "/" (c :: ps) ++ String "/" name)
    by (apply join_snoc; discriminate).
  unfold Path_str. cbn [root parts]. cbn [app] in *.
  destruct r as [|a r]; rewrite J;
    [reflexivity | rewrite append_assoc; reflexivity].
Qed.

(** The file [name] in the directory [p], written as
    [f"{p}/{name}"], is the path [p / name]. *)
Lemma Path_of_file_in (p : Path) (name : string) :
  Path_ok p -> parts p <> [] -> component_ok name = true ->
  Path_of (Path_str p ++ String "/" name)
  = {| root := root p; parts := parts p ++ [name] |}.
Proof.
  intros Hp Hne Hname.
  assert (Hok : Path_ok {| root := root p; parts := parts p ++ [name] |}).
  { destruct Hp as (Hr & Hps). split; [exact Hr|]. cbn [parts].
    rewrite forallb_app, Hps. cbn [forallb]. rewrite Hname. reflexivity. }
  rewrite <- (Path_of_Path_str _ Hok). f_equal.
  symmetry. apply Path_str_file_in. exact Hne.
Qed.

Lemma Path_suffix_file_in (r : string) (ps : list string) (name : string) :
  Path_suffix {| root := r; parts := ps ++ [name] |}
  = Path_suffix {| root := ""; parts := [name] |}.
Proof.
  unfold Path_suffix, Path_name. cbn [parts]. rewrite last_last. reflexivity.
Qed.

(** Normalising a path string twice is normalising it once: [str(Path(s))]
    is read back by [Path] as the same path. *)
Theorem Path_of_idempotent (s : string) :
  Path_of (Path_str (Path_of s)) = Path_of s.
Proof. apply Path_of_Path_str. apply Path_of_ok. Qed.

(** ** The script: the theme name and the generated icon *)

Lemma Icons_scan_skip (pre rest : list string) (theme : string) :
  forallb (fun line => negb (String.eqb (Py.strip line) "[Icons]")) pre = true ->
  Icons_scan (pre ++ rest)%list theme = Icons_scan rest theme.
Proof.
  induction pre as [|line pre IH]; intros H; [reflexivity|].
  cbn [forallb] in H. apply andb_prop in H. destruct H as (Hl & Hpre).
  apply negb_true_iff in Hl. cbn [app Icons_scan]. rewrite Hl. apply IH. exact Hpre.
Qed.

Lemma Icons_scan_none (lines : list string) (theme : string) :
  forallb (fun line => negb (String.eqb (Py.strip line) "[Icons]")) lines = true ->
  Icons_scan lines theme = Returns theme.
Proof.
  intros H. rewrite <- (app_nil_r lines). rewrite Icons_scan_skip by exact H.
  reflexivity.
Qed.

(** [get_theme_name] returns the second ["="]-field of the line that follows
    the [[Icons]] header of [~/.config/kdeglobals] (here: the only such
    header), having opened that one file. *)
Theorem get_theme_name_line_after_Icons
    (fs : FileSystem) (userhome : string) (pre rest : list string)
    (header next v : string) (w : World) :
  fs_lines fs (expanduser userhome "/.config/kdeglobals")
  = Some (pre ++ header :: next :: rest)%list ->
  forallb (fun line => negb (String.eqb (Py.strip line) "[Icons]")) pre = true ->
  Py.strip header = "[Icons]" ->
  nth_error (Py.split (Py.strip next) "=") 1 = Some v ->
  forallb (fun line => negb (String.eqb (Py.strip line) "[Icons]")) rest = true ->
  get_theme_name fs userhome w
  = (Returns v,
     {| THEME_CACHE := THEME_CACHE w;
        opened := opened w ++ [expanduser userhome "/.config/kdeglobals"] |}).
Proof.
  intros Hlines Hpre Hh Hv Hrest. unfold get_theme_name. rewrite Hlines.
  rewrite Icons_scan_skip by exact Hpre. cbn [Icons_scan].
  rewrite Hh, String.eqb_refl, Hv. rewrite Icons_scan_none by exact Hrest.
  reflexivity.
Qed.

(** When the line after the first [[Icons]] header has no ["="], or when the
    header is the last line of the file, [get_theme_name] raises
    [IndexError]. *)
Theorem get_theme_name_IndexError
    (fs : FileSystem) (userhome : string) (pre tail : list string)
    (header : string) (w : World) :
  fs_lines fs (expanduser userhome "/.config/kdeglobals")
  = Some (pre ++ header :: tail)%list ->
  forallb (fun line => negb (String.eqb (Py.strip line) "[Icons]")) pre = true ->
  Py.strip header = "[Icons]" ->
  nth_error (Py.split (Py.strip (hd "" tail)) "=") 1 = None ->
  fst (get_theme_name fs userhome w) = RaisesIndexError.
Proof.
  intros Hlines Hpre Hh Hv. unfold get_theme_name. rewrite Hlines. cbn [fst].
  rewrite Icons_scan_skip by exact Hpre. cbn [Icons_scan].
  rewrite Hh, String.eqb_refl.
  destruct tail as [|next rest]; cbn [hd] in Hv; rewrite Hv; reflexivity.
Qed.


(** What [generate_icon] does with a file that the resolver found in a
    subdirectory with an absolute path: an svg file is handed to inkscape
    under the very name the resolver returned, a png file is copied from that
    name, an xpm file is reported as "unknown file type". *)
Theorem generate_icon_by_extension
    (fs : FileSystem) (userhome : string) (cwd output_path : Path) (depth : nat)
    (theme_name extension : string) (subdir : ThemeSubdirectory) (w w1 w2 : World) :
  get_theme_name fs userhome w = (Returns theme_name, w1) ->
  find_icon fs (Path_home userhome) depth theme_name "utilities-terminal" 64 1 w1
  = (Ok (Some (icon_filename subdir "utilities-terminal" extension)), w2) ->
  Path_ok (full_path subdir) ->
  root (full_path subdir) = "/" ->
  parts (full_path subdir) <> [] ->
  In extension ["png"; "svg"; "xpm"] ->
  generate_icon fs userhome cwd depth output_path w
  = (Returns
       (if String.eqb extension "svg"
        then System ("inkscape -w 64 -h 64 "
                     ++ icon_filename subdir "utilities-terminal" extension
                     ++ " -o " ++ Path_str output_path)
        else if String.eqb extension "png"
             then CopyFile (icon_filename subdir "utilities-terminal" extension)
                    (Path_str (Path_absolute cwd output_path))
             else Print "unknown file type"),
     w2).
Proof.
  intros Hname Hfind Hok Hroot Hparts Hext. unfold generate_icon.
  rewrite Hname, Hfind.
  assert (Hfile : forall name,
             component_ok name = true ->
             Path_of (Path_str (full_path subdir) ++ String "/" name)
             = {| root := "/"; parts := parts (full_path subdir) ++ [name] |}
             /\ Path_str {| root := "/"; parts := parts (full_path subdir) ++ [name] |}
                = Path_str (full_path subdir) ++ String "/" name).
  { intros name Hn. rewrite <- Hroot. split.
    - apply Path_of_file_in; assumption.
    - apply Path_str_file_in; assumption. }
  unfold icon_filename.
  destruct Hext as [<-|[<-|[<-|[]]]].
  - destruct (Hfile "utilities-terminal.png" eq_refl) as (HP & HS).
    change (Path_str (full_path subdir) ++ "/" ++ "utilities-terminal" ++ "." ++ "png")
      with (Path_str (full_path subdir) ++ String "/" "utilities-terminal.png").
    rewrite HP, Path_suffix_file_in.
    change (Path_suffix {| root := ""; parts := ["utilities-terminal.png"] |})
      with ".png".
    cbn [String.eqb Ascii.eqb Bool.eqb]. unfold Path_absolute. cbn [root].
    cbn [String.eqb]. rewrite HS. reflexivity.
  - destruct (Hfile "utilities-terminal.svg" eq_refl) as (HP & HS).
    change (Path_str (full_path subdir) ++ "/" ++ "utilities-terminal" ++ "." ++ "svg")
      with (Path_str (full_path subdir) ++ String "/" "utilities-terminal.svg").
    rewrite HP, Path_suffix_file_in.
    change (Path_suffix {| root := ""; parts := ["utilities-terminal.svg"] |})
      with ".svg".
    cbn [String.eqb Ascii.eqb Bool.eqb]. unfold convert_svg_to_png.
    rewrite HS. reflexivity.
  - destruct (Hfile "utilities-terminal.xpm" eq_refl) as (HP & HS).
    change (Path_str (full_path subdir) ++ "/" ++ "utilities-terminal" ++ "." ++ "xpm")
      with (Path_str (full_path subdir) ++ String "/" "utilities-terminal.xpm").
    rewrite HP, Path_suffix_file_in.
    change (Path_suffix {| root := ""; parts := ["utilities-terminal.xpm"] |})
      with ".xpm".
    reflexivity.
Qed.

Lemma get_theme_name_line_after_Icons_witness :
  get_theme_name (fs_kde []) "/home/michael" initial_world
  = (Returns "T",
     {| THEME_CACHE := THEME_CACHE initial_world;
        opened := opened initial_world
                  ++ [expanduser "/home/michael" "/.config/kdeglobals"] |}).
Proof.
  apply (get_theme_name_line_after_Icons (fs_kde []) "/home/michael"
           (firstn 3 (readlines kdeglobals_T)) (skipn 5 (readlines kdeglobals_T))
           (nth 3 (readlines kdeglobals_T) "") (nth 4 (readlines kdeglobals_T) "")
           "T" initial_world).
  - vm_compute. reflexivity.
  - vm_compute. reflexivity.
  - vm_compute. reflexivity.
  - vm_compute. reflexivity.
  - vm_compute. reflexivity.
Defined.

Lemma get_theme_name_IndexError_witness :
  fst (get_theme_name
         (installation [] [("/home/michael/.config/kdeglobals", "[Icons]")])
         "/home/michael" initial_world)
  = RaisesIndexError.
Proof.
  apply (get_theme_name_IndexError
           (installation [] [("/home/michael/.config/kdeglobals", "[Icons]")])
           "/home/michael" [] [] "[Icons]" initial_world).
  - vm_compute. reflexivity.
  - reflexivity.
  - vm_compute. reflexivity.
  - vm_compute. reflexivity.
Defined.


Lemma generate_icon_by_extension_witness :
  generate_icon
    (fs_kde [("/usr/share/icons/T/48x48/utilities-terminal.svg", "")])
    "/home/michael" (Path_of "/tmp") 2 (Path_of "icon.png") initial_world
  = (Returns
       (if String.eqb "svg" "svg"
        then System ("inkscape -w 64 -h 64 "
                     ++ icon_filename (fixed_subdir "48x48" 48 1) "utilities-terminal" "svg"
                     ++ " -o " ++ Path_str (Path_of "icon.png"))
        else if String.eqb "svg" "png"
             then CopyFile
                    (icon_filename (fixed_subdir "48x48" 48 1) "utilities-terminal" "svg")
                    (Path_str (Path_absolute (Path_of "/tmp") (Path_of "icon.png")))
             else Print "unknown file type"),
     {| THEME_CACHE := [];
        opened := ["/home/michael/.config/kdeglobals";
                   "/usr/share/icons/T/index.theme";
                   "/usr/share/icons/T/index.theme";
                   "/usr/share/icons/T/index.theme"] |}).
Proof.
  apply (generate_icon_by_extension
           (fs_kde [("/usr/share/icons/T/48x48/utilities-terminal.svg", "")])
           "/home/michael" (Path_of "/tmp") (Path_of "icon.png") 2 "T" "svg"
           (fixed_subdir "48x48" 48 1) initial_world
           {| THEME_CACHE := []; opened := ["/home/michael/.config/kdeglobals"] |}).
  - vm_compute. reflexivity.
  - vm_compute. reflexivity.
  - split; [right; left; reflexivity | vm_compute; reflexivity].
  - vm_compute. reflexivity.
  - vm_compute. discriminate.
  - right; left. reflexivity.
Defined.

(** ** Repeated calls *)

Lemma repeatable_ret {A} (a : A) : repeatable (ret a).
Proof.
  intros [c o] Hw. cbn in Hw. subst c. unfold ret. cbn. rewrite app_nil_r.
  reflexivity.
Qed.

Lemma repeatable_raise {A} (e : exn) : repeatable (@raise A e).
Proof.
  intros [c o] Hw. cbn in Hw. subst c. unfold raise. cbn. rewrite app_nil_r.
  reflexivity.
Qed.

Lemma repeatable_lift {A} (r : result A) : repeatable (lift r).
Proof.
  intros [c o] Hw. cbn in Hw. subst c. unfold lift. cbn. rewrite app_nil_r.
  reflexivity.
Qed.

Lemma repeatable_bind {A B} (m : M A) (k : A -> M B) :
  repeatable m -> (forall a, repeatable (k a)) -> repeatable (bind m k).
Proof.
  intros Hm Hk w Hw. unfold bind.
  pose proof (Hm initial_world eq_refl) as H0. cbn [opened initial_world app] in H0.
  rewrite (Hm w Hw).
  destruct (m initial_world) as [[a|e] w0] eqn:E; cbn [fst snd] in *.
  - injection H0 as ->. cbn [opened].
    rewrite (Hk a {| THEME_CACHE := []; opened := opened w ++ opened w0 |} eq_refl).
    rewrite (Hk a {| THEME_CACHE := []; opened := opened w0 |} eq_refl).
    cbn [fst snd opened]. rewrite app_assoc. reflexivity.
  - reflexivity.
Qed.

Lemma repeatable_comprehension {A B} (f : A -> M B) (xs : list A) :
  (forall x, repeatable (f x)) -> repeatable (comprehension f xs).
Proof.
  intros Hf. induction xs as [|x xs IH]; cbn [comprehension].
  - apply repeatable_ret.
  - apply repeatable_bind; [apply Hf|]. intros y.
    apply repeatable_bind; [exact IH|]. intros ys. apply repeatable_ret.
Qed.

Section Repeatable.

Variables (fs : FileSystem) (home : Path).

Lemma repeatable_open (p : Path) : repeatable (open_ fs p).
Proof.
  intros [c o] Hw. cbn in Hw. subst c. unfold open_.
  destruct (fs_lines fs (Path_str p)); cbn; [reflexivity|].
  rewrite app_nil_r. reflexivity.
Qed.

Lemma repeatable_ThemeSubdirectory_init (rp : Path) (theme : Theme) :
  repeatable (ThemeSubdirectory_init fs rp theme).
Proof.
  unfold ThemeSubdirectory_init.
  apply repeatable_bind; [apply repeatable_open|]. intros lines.
  apply repeatable_bind; [apply repeatable_lift|]. intros self.
  apply repeatable_ret.
Qed.

Lemma repeatable_Theme_scan (mk : string -> M Theme) :
  (forall n, repeatable (mk n)) ->
  forall lines self, repeatable (Theme_scan fs mk lines self).
Proof.
  intros Hmk. induction lines as [|raw rest IH]; intros self; cbn [Theme_scan].
  - apply repeatable_ret.
  - cbv zeta. destruct (_ && _); [apply repeatable_ret|].
    destruct (Py.split (Py.strip raw) "=") as [|k [|v [|x l]]]; try apply IH.
    apply repeatable_bind.
    { destruct (String.eqb k "Inherits"); [|apply repeatable_ret].
      apply repeatable_bind; [|intros; apply repeatable_ret].
      apply repeatable_comprehension. exact Hmk. }
    intros self1. apply repeatable_bind.
    { destruct (String.eqb k "Directories"); [|apply repeatable_ret].
      apply repeatable_bind; [|intros; apply repeatable_ret].
      apply repeatable_comprehension. intros x.
      apply repeatable_ThemeSubdirectory_init. }
    intros self2. apply IH.
Qed.

Lemma repeatable_check_cache (ctor : option Path -> M Theme) (d : option Path) :
  (forall d', repeatable (ctor d')) ->
  repeatable (check_cache_before_creation ctor d).
Proof.
  intros H w Hw. unfold check_cache_before_creation. rewrite Hw.
  cbn [dict_get THEME_CACHE initial_world]. apply H. exact Hw.
Qed.

Lemma repeatable_Theme_init (depth : nat) :
  forall d, repeatable (Theme_init fs home depth d).
Proof.
  induction depth as [|depth IH]; intros d; cbn [Theme_init].
  - apply repeatable_raise.
  - destruct d as [d|]; [|apply repeatable_raise].
    apply repeatable_bind; [apply repeatable_open|]. intros lines.
    apply repeatable_Theme_scan. intros n.
    apply repeatable_check_cache. exact IH.
Qed.

Lemma repeatable_find_icon (depth : nat) (theme_name icon : string) (sz sc : Z) :
  repeatable (find_icon fs home depth theme_name icon sz sc).
Proof.
  unfold find_icon.
  apply repeatable_bind.
  { apply repeatable_check_cache. apply repeatable_Theme_init. }
  intros t. apply repeatable_bind; [apply repeatable_lift|]. intros [f|].
  - apply repeatable_ret.
  - apply repeatable_bind.
    { apply repeatable_check_cache. apply repeatable_Theme_init. }
    intros t'. apply repeatable_bind; [apply repeatable_lift|].
    intros [f|]; apply repeatable_ret.
Qed.

End Repeatable.

(** Calling [find_icon] again with the same arguments gives the same result
    and opens the same index files once more: nothing is remembered from the
    first call. *)
Theorem find_icon_again
    (fs : FileSystem) (home : Path) (depth : nat) (theme_name icon : string)
    (size scale : Z) :
  let first := find_icon fs home depth theme_name icon size scale initial_world in
  let second := find_icon fs home depth theme_name icon size scale (snd first) in
  fst second = fst first
  /\ opened (snd second) = (opened (snd first) ++ opened (snd first))%list.
Proof.
  intros first second. subst second.
  assert (Hc : THEME_CACHE (snd first) = []).
  { subst first. rewrite (keeps_cache_find_icon fs home). reflexivity. }
  rewrite (repeatable_find_icon fs home depth theme_name icon size scale _ Hc).
  fold first. split; reflexivity.
Qed.


(** ** The closest match: what the second pass can select *)

Section Selected.

Variables (fs : FileSystem) (iconname : string) (icon_size icon_scale : Z).







End Selected.




